(** * go-rajchain: trie state sets, node start-up and shutdown, tracer test helpers

    A shallow embedding of the parts of the repository that its specification
    talks about:

    - [triedb]: [StateSet], [NewStateSet] and [internal] (triedb/states.go);
    - [tracetest]: [camel] (eth/tracers/internal/tracetest);
    - [eth]: [New] and [Stop] of the full node service (eth/backend.go), with
      the configuration record of eth/ethconfig;
    - [pathdb]: the layer tree of the path scheme, modelled from its
      specification.

    Go values are modelled as follows.  A pointer is an [option] ([None] is
    nil).  A map is an [option] of a finite map ([None] is the nil map).  A
    string is a sequence of bytes, here [string] (a list of 8-bit [ascii]).
    [int] is the 64-bit signed integer: a [Z] with the wrap-around written
    out.  Calls into packages that are not modelled are recorded in a trace
    of events, and their outcomes are read from an environment record. *)

From Stdlib Require Import ZArith Lia Ascii String List.
From stdpp Require Import base decidable countable gmap strings list.

Local Open Scope Z_scope.

(* ===================================================================== *)
(** * Package common: hashes and addresses *)
(* ===================================================================== *)

Module common.

(** [common.Hash] is a 32-byte array and [common.Address] a 20-byte array.
    Both are only used as map keys here, so each is represented by the
    number its bytes spell in big-endian order. *)
Record Hash := mkHash { hash_value : N }.
Record Address := mkAddress { address_value : N }.

#[global] Instance Hash_eq_dec : EqDecision Hash.
Proof. solve_decision. Defined.

#[global] Instance Address_eq_dec : EqDecision Address.
Proof. solve_decision. Defined.

#[global] Instance Hash_countable : Countable Hash.
Proof. apply (inj_countable' hash_value mkHash). by intros []. Defined.

#[global] Instance Address_countable : Countable Address.
Proof. apply (inj_countable' address_value mkAddress). by intros []. Defined.

End common.

(** A Go byte slice. *)
Abbreviation bytes := (list Byte.byte) (only parsing).

(** A Go map: [None] is the nil map, [Some m] an initialised one. *)
Abbreviation gomap K V := (option (gmap K V)) (only parsing).

(** [len(m)] of a Go map; the nil map has length 0. *)
Definition gomap_len {K V} `{Countable K} (m : gomap K V) : nat :=
  match m with
  | None => 0%nat
  | Some m => size m
  end.

(* ===================================================================== *)
(** * Package triedb: state sets (triedb/states.go) *)
(* ===================================================================== *)

Module triedb.
Import common.

(** [type StateSet struct]: the mutated states of one state transition. *)
Record StateSet := {
  Accounts : gomap Hash bytes;
  AccountsOrigin : gomap Address bytes;
  Storages : gomap Hash (gomap Hash bytes);
  StoragesOrigin : gomap Address (gomap Hash bytes)
}.

(** [func NewStateSet()]: a pointer to a set whose fields are all [make]d. *)
Definition NewStateSet : option StateSet :=
  Some {| Accounts := Some ∅;
          AccountsOrigin := Some ∅;
          Storages := Some ∅;
          StoragesOrigin := Some ∅ |}.

Section Internal.
(** [pathdb.StateSetWithOrigin] and its constructor
    [pathdb.NewStateSetWithOrigin] belong to package pathdb; both are
    parameters here.  The constructor returns a pointer. *)
Variable StateSetWithOrigin : Type.
Variable NewStateSetWithOrigin :
  gomap Address bytes -> gomap Address (gomap Hash bytes) ->
  option StateSetWithOrigin.

(** [func (set) internal()]: the state set for path database internal usage. *)
Definition internal (set : option StateSet) : option StateSetWithOrigin :=
  match set with
  | None => None   (* the nil state set is possible in tests *)
  | Some s => NewStateSetWithOrigin (AccountsOrigin s) (StoragesOrigin s)
  end.
End Internal.

End triedb.

(* ===================================================================== *)
(** * Go strings, runes and UTF-8 *)
(* ===================================================================== *)

Module gostring.

(** A program either returns, panics (a run-time error such as an index out
    of range), or, in a fuel-bounded model of a loop, runs out of fuel. *)
Inductive outcome (A : Type) : Type :=
| Returns (a : A)
| Panics (msg : string)
| OutOfFuel.
Arguments Returns {A} a.
Arguments Panics {A} msg.
Arguments OutOfFuel {A}.

(** [rune(b)] for a byte [b], and [byte(z)] for an integer (low 8 bits). *)
Definition rune_of_byte (b : ascii) : Z := Z.of_N (N_of_ascii b).
Definition byte_of_Z (z : Z) : ascii := ascii_of_N (Z.to_N (z mod 256)).

Definition MaxASCII : Z := 0x7F.
Definition MaxRune : Z := 0x10FFFF.
Definition RuneError : Z := 0xFFFD.

(** [unicode.ToUpper]: the ASCII fast path of the Go library, then the
    [CaseRanges] table.  The table entries listed are all those below
    U+0100; a rune converted from one byte is always in that range. *)
Definition ToUpper (r : Z) : Z :=
  if r <=? MaxASCII then
    if (0x61 <=? r) && (r <=? 0x7A) then r - (0x61 - 0x41) else r
  else if r =? 0xB5 then r + 743
  else if (0xE0 <=? r) && (r <=? 0xF6) then r - 32
  else if (0xF8 <=? r) && (r <=? 0xFE) then r - 32
  else if r =? 0xFF then r + 121
  else r.

(** [string(r)] for a rune [r]: its UTF-8 encoding; a value that is not a
    valid code point is replaced by U+FFFD. *)
Definition string_of_rune (r : Z) : string :=
  let r := if (r <? 0) || (MaxRune <? r) || ((0xD800 <=? r) && (r <=? 0xDFFF))
           then RuneError else r in
  let cont x := byte_of_Z (Z.lor 0x80 (Z.land x 0x3F)) in
  if r <=? 0x7F then
    String (byte_of_Z r) EmptyString
  else if r <=? 0x7FF then
    String (byte_of_Z (Z.lor 0xC0 (Z.shiftr r 6)))
      (String (cont r) EmptyString)
  else if r <=? 0xFFFF then
    String (byte_of_Z (Z.lor 0xE0 (Z.shiftr r 12)))
      (String (cont (Z.shiftr r 6)) (String (cont r) EmptyString))
  else
    String (byte_of_Z (Z.lor 0xF0 (Z.shiftr r 18)))
      (String (cont (Z.shiftr r 12))
         (String (cont (Z.shiftr r 6)) (String (cont r) EmptyString))).

(** [utf8.DecodeRuneInString]: the first rune of a string and its width in
    bytes; [(RuneError, 1)] on an invalid encoding, [(RuneError, 0)] on the
    empty string. *)
Definition in_range (lo hi x : Z) : bool := (lo <=? x) && (x <=? hi).

Definition DecodeRuneInString (s : string) : Z * nat :=
  let low6 x := Z.land x 0x3F in
  match s with
  | EmptyString => (RuneError, 0%nat)
  | String c0 s1 =>
    let b0 := rune_of_byte c0 in
    if b0 <? 0x80 then (b0, 1%nat)
    else if in_range 0xC2 0xDF b0 then
      match s1 with
      | String c1 _ =>
        let b1 := rune_of_byte c1 in
        if in_range 0x80 0xBF b1
        then (Z.lor (Z.shiftl (Z.land b0 0x1F) 6) (low6 b1), 2%nat)
        else (RuneError, 1%nat)
      | _ => (RuneError, 1%nat)
      end
    else if in_range 0xE0 0xEF b0 then
      match s1 with
      | String c1 (String c2 _) =>
        let b1 := rune_of_byte c1 in
        let b2 := rune_of_byte c2 in
        let lo := if b0 =? 0xE0 then 0xA0 else 0x80 in
        let hi := if b0 =? 0xED then 0x9F else 0xBF in
        if in_range lo hi b1 && in_range 0x80 0xBF b2
        then (Z.lor (Z.shiftl (Z.land b0 0x0F) 12)
                (Z.lor (Z.shiftl (low6 b1) 6) (low6 b2)), 3%nat)
        else (RuneError, 1%nat)
      | _ => (RuneError, 1%nat)
      end
    else if in_range 0xF0 0xF4 b0 then
      match s1 with
      | String c1 (String c2 (String c3 _)) =>
        let b1 := rune_of_byte c1 in
        let b2 := rune_of_byte c2 in
        let b3 := rune_of_byte c3 in
        let lo := if b0 =? 0xF0 then 0x90 else 0x80 in
        let hi := if b0 =? 0xF4 then 0x8F else 0xBF in
        if in_range lo hi b1 && in_range 0x80 0xBF b2 && in_range 0x80 0xBF b3
        then (Z.lor (Z.shiftl (Z.land b0 0x07) 18)
                (Z.lor (Z.shiftl (low6 b1) 12)
                   (Z.lor (Z.shiftl (low6 b2) 6) (low6 b3))), 4%nat)
        else (RuneError, 1%nat)
      | _ => (RuneError, 1%nat)
      end
    else (RuneError, 1%nat)
  end.

(** [s[n:]] for [n <= len(s)]. *)
Fixpoint drop_bytes (n : nat) (s : string) : string :=
  match n, s with
  | O, _ => s
  | S n', String _ s' => drop_bytes n' s'
  | S _, EmptyString => EmptyString
  end.

(** [strings.Split(s, sep)] for a separator of one byte: the pieces between
    the occurrences of [sep]; there is always at least one piece. *)
Fixpoint Split (sep : ascii) (s : string) : list string :=
  match s with
  | EmptyString => [EmptyString]
  | String c s' =>
    if decide (c = sep) then EmptyString :: Split sep s'
    else match Split sep s' with
         | p :: ps => String c p :: ps
         | [] => [String c EmptyString]
         end
  end.

(** [strings.Join] with the empty separator. *)
Fixpoint Join (pieces : list string) : string :=
  match pieces with
  | [] => EmptyString
  | p :: ps => String.append p (Join ps)
  end.

End gostring.

(* ===================================================================== *)
(** * Package tracetest: camel *)
(* ===================================================================== *)

Module tracetest.
Import gostring.

(** The body of the loop of [camel] at index [i]:
    [pieces[i] = string(unicode.ToUpper(rune(pieces[i][0]))) + pieces[i][1:]].
    Indexing the empty piece at 0 panics. *)
Definition camel_step (i : nat) (pieces : list string)
  : outcome (list string) :=
  match pieces !! i with
  | None => Panics "index out of range"
  | Some EmptyString => Panics "index out of range [0] with length 0"
  | Some (String b rest) =>
    Returns (<[i := String.append (string_of_rune (ToUpper (rune_of_byte b))) rest]>
               pieces)
  end.

(** [for i := 1; i < len(pieces); i++ { ... }], started at [i]. *)
Fixpoint camel_loop (fuel : nat) (i : nat) (pieces : list string)
  : outcome (list string) :=
  match fuel with
  | O => OutOfFuel
  | S fuel' =>
    if (i <? length pieces)%nat then
      match camel_step i pieces with
      | Returns pieces' => camel_loop fuel' (S i) pieces'
      | Panics msg => Panics msg
      | OutOfFuel => OutOfFuel
      end
    else Returns pieces
  end.

(** [func camel(str string) string] run with the given fuel. *)
Definition camel_fuel (fuel : nat) (str : string) : outcome string :=
  let pieces := Split "_"%char str in
  match camel_loop fuel 1 pieces with
  | Returns pieces' => Returns (Join pieces')
  | Panics msg => Panics msg
  | OutOfFuel => OutOfFuel
  end.

(** [camel]: there are at most [len(str) + 1] pieces, and the loop test is
    evaluated once per piece, so this fuel is enough. *)
Definition camel (str : string) : outcome string :=
  camel_fuel (S (String.length str)) str.

(** What [camel] does to a piece after the first one: the first byte, taken
    as a code point, is upper-cased and encoded again. *)
Definition upperFirstByte (p : string) : string :=
  match p with
  | EmptyString => EmptyString
  | String b rest =>
    String.append (string_of_rune (ToUpper (rune_of_byte b))) rest
  end.

(** The specification's words: the piece with its first rune upper-cased. *)
Definition upperFirstRune (p : string) : string :=
  let '(r, width) := DecodeRuneInString p in
  String.append (string_of_rune (ToUpper r)) (drop_bytes width p).

(** The specification's camel: the pieces joined, each piece after the first
    having its first rune upper-cased. *)
Definition camel_spec (str : string) : string :=
  match Split "_"%char str with
  | [] => EmptyString
  | p :: ps => Join (p :: map upperFirstRune ps)
  end.

(** The precondition: no piece after the first is empty. *)
Definition pieces_nonempty (str : string) : Prop :=
  Forall (fun p => p <> EmptyString) (tail (Split "_"%char str)).

(** The pieces after the first all start with an ASCII byte. *)
Definition pieces_ascii (str : string) : Prop :=
  Forall (fun p => match p with
                   | EmptyString => True
                   | String b _ => rune_of_byte b < 0x80
                   end) (tail (Split "_"%char str)).

End tracetest.

(* ===================================================================== *)
(** * Go's int *)
(* ===================================================================== *)

Module goint.

(** [int] is 64 bits wide on the platforms the node is built for.  Sums and
    products wrap around; [/] truncates towards zero. *)
Definition MinInt : Z := - 2 ^ 63.
Definition MaxInt : Z := 2 ^ 63 - 1.

Definition in_int (z : Z) : Prop := MinInt <= z <= MaxInt.

Definition wrap (z : Z) : Z := (z + 2 ^ 63) mod 2 ^ 64 - 2 ^ 63.

Definition add (a b : Z) : Z := wrap (a + b).
Definition mul (a b : Z) : Z := wrap (a * b).
Definition div (a b : Z) : Z := wrap (Z.quot a b).

(** [uint64(x)] for an [int] [x]. *)
Definition to_uint64 (z : Z) : Z := z mod 2 ^ 64.

End goint.

(* ===================================================================== *)
(** * Package math/big: what eth.New uses of it *)
(* ===================================================================== *)

Module bigint.

(** [func (x *Int) Uint64() uint64] returns [low64(x.abs)]: the low 64 bits
    of the magnitude of [x], whatever its sign.  The [big.Int] behind the
    pointer is the integer; the nil pointer is handled where the method is
    called. *)
Definition Uint64 (x : Z) : Z := Z.abs x mod 2 ^ 64.

End bigint.

(* ===================================================================== *)
(** * Packages rawdb, params, core: what eth.New uses of them *)
(* ===================================================================== *)

Module rawdb.

(** The two state schemes.  The configuration documents their names: the
    state scheme "can be 'hash', 'path', or none". *)
Inductive scheme := Hash | Path.

#[global] Instance scheme_eq_dec : EqDecision scheme.
Proof. solve_decision. Defined.

Definition HashScheme : string := "hash".
Definition PathScheme : string := "path".

Definition scheme_name (k : scheme) : string :=
  match k with
  | Hash => HashScheme
  | Path => PathScheme
  end.

(** The chain database, as far as [eth.New] reads and writes it: the scheme
    of the state persisted in it, if any, and the database version record. *)
Record ChainDb := {
  db_scheme : option scheme;
  db_version : option Z
}.

(** [rawdb.ReadStateScheme]: the empty string when no state is persisted. *)
Definition ReadStateScheme (db : ChainDb) : string :=
  match db_scheme db with
  | None => EmptyString
  | Some k => scheme_name k
  end.

(** [rawdb.ReadDatabaseVersion] returns a [*uint64]; [nil] when absent. *)
Definition ReadDatabaseVersion (db : ChainDb) : option Z := db_version db.

(** [rawdb.WriteDatabaseVersion] *)
Definition WriteDatabaseVersion (db : ChainDb) (version : Z) : ChainDb :=
  {| db_scheme := db_scheme db; db_version := Some version |}.

End rawdb.

Module params.

(** [params.ChainConfig], the fields read here.  All three are pointers
    ([*big.Int], [*big.Int], [*CliqueConfig]): [None] is the nil pointer. *)
Record ChainConfig := {
  ChainID : option Z;
  TerminalTotalDifficulty : option Z;
  Clique : option unit
}.

End params.

Module core.

(** [core.CacheConfig], with the fields that [eth.New] sets. *)
Record CacheConfig := {
  TrieCleanLimit : Z;
  TrieCleanNoPrefetch : bool;
  TrieDirtyLimit : Z;
  TrieDirtyDisabled : bool;
  TrieTimeLimit : Z;
  SnapshotLimit : Z;
  Preimages : bool;
  StateHistory : Z;
  StateScheme : string
}.

End core.

(* ===================================================================== *)
(** * Errors, results and the trace of calls *)
(* ===================================================================== *)

Module effects.

(** Go [error] values. *)
Inductive error :=
| ErrInvalidSyncMode (mode : Z)
| ErrMissingTerminalTotalDifficulty
| ErrDatabaseVersion (found supported : Z)
| ErrCreateTracer (name : string) (cause : error)
| ErrInvalidStateScheme (provided : string)
| ErrIncompatibleStateScheme (stored provided : string)
| ErrExternal (msg : string).

(** What a Go function with the results [(T, error)] returns: a value, or
    an error. *)
Inductive returned (A : Type) : Type :=
| Ok (a : A)
| Err (e : error).
Arguments Ok {A} a.
Arguments Err {A} e.

(** A call either returns or panics. *)
Inductive result (A : Type) : Type :=
| Returned (r : returned A)
| Panic (msg : string).
Arguments Returned {A} r.
Arguments Panic {A} msg.

Definition is_Ok {A} (r : result A) : bool :=
  match r with Returned (Ok _) => true | _ => false end.
Definition is_Err {A} (r : result A) : bool :=
  match r with Returned (Err _) => true | _ => false end.

(** The calls that [New] and [Stop] make into other packages, in the order
    they are made. *)
Inductive Event :=
| OpenDatabaseWithFreezer
| ParseStateScheme (provided : string)
| RecoverPruning
| LoadChainConfig
| NewBloomIndexer
| NewShutdownTracker
| ReadDatabaseVersion
| WriteDatabaseVersion (version : Z)
| TracersNew (name config : string)
| NewBlockChain (db : rawdb.ChainDb) (cacheConfig : core.CacheConfig)
| BloomIndexerStart
| BlobPoolNew
| LegacyPoolNew
| TxPoolNew
| NewHandler (bloomCache : Z)
| MinerNew
| NewOracle
| NewNetAPI
| RegisterAPIs
| RegisterProtocols
| RegisterLifecycle
| MarkStartup
| DiscmixClose
| HandlerStop
| BloomIndexerClose
| CloseBloomHandler
| TxPoolClose
| BlockchainStop
| EngineClose
| ShutdownTrackerStop
| ChainDbClose
| EventMuxStop.

(** Computations that write a trace of calls and may stop early: the
    events written, in order, and the result. *)
Definition M (A : Type) : Type := (list Event * result A)%type.

Definition ret {A} (a : A) : M A := ([], Returned (Ok a)).

Definition bind {A B} (m : M A) (k : A -> M B) : M B :=
  match m with
  | (w, Returned (Ok a)) => let '(w', r) := k a in (w ++ w', r)
  | (w, Returned (Err e)) => (w, Returned (Err e))
  | (w, Panic msg) => (w, Panic msg)
  end.

Definition fail {A} (e : error) : M A := ([], Returned (Err e)).
Definition panic {A} (msg : string) : M A := ([], Panic msg).
Definition emit (ev : Event) : M unit := ([ev], Returned (Ok tt)).

(** A call that is recorded and whose outcome the environment decides. *)
Definition call {A} (ev : Event) (r : returned A) : M A :=
  ([ev], Returned r).

(** A call that returns only an error, nil on success. *)
Definition call_err (ev : Event) (r : option error) : M unit :=
  ([ev], Returned (match r with None => Ok tt | Some e => Err e end)).

(** A function of this development that returns a value or an error. *)
Definition pure {A} (r : returned A) : M A := ([], Returned r).

(** The trace and the result of a computation. *)
Definition trace_of {A} (m : M A) : list Event := fst m.
Definition result_of {A} (m : M A) : result A := snd m.

(** Classes of events. *)
Definition is_ParseStateScheme (e : Event) : bool :=
  match e with ParseStateScheme _ => true | _ => false end.
Definition is_RecoverPruning (e : Event) : bool :=
  match e with RecoverPruning => true | _ => false end.
Definition is_WriteDatabaseVersion (e : Event) : bool :=
  match e with WriteDatabaseVersion _ => true | _ => false end.
Definition is_NewBlockChain (e : Event) : bool :=
  match e with NewBlockChain _ _ => true | _ => false end.
Definition is_BlockchainStop (e : Event) : bool :=
  match e with BlockchainStop => true | _ => false end.
Definition is_ShutdownTrackerStop (e : Event) : bool :=
  match e with ShutdownTrackerStop => true | _ => false end.
Definition is_ChainDbClose (e : Event) : bool :=
  match e with ChainDbClose => true | _ => false end.

(** How many events of a class a trace holds. *)
Definition count (P : Event -> bool) (t : list Event) : nat :=
  length (List.filter P t).

(** Every event of the class [Q] in the trace comes after some event of the
    class [P]. *)
Definition happens_before (P Q : Event -> bool) (t : list Event) : Prop :=
  forall i e, t !! i = Some e -> Q e = true ->
    exists j e', (j < i)%nat /\ t !! j = Some e' /\ P e' = true.

(** A check of [happens_before] in one pass; [seen] tells whether an event
    of the class [P] has been met. *)
Fixpoint guarded (P Q : Event -> bool) (seen : bool) (t : list Event)
  : bool :=
  match t with
  | [] => true
  | e :: t' => implb (Q e) seen && guarded P Q (seen || P e) t'
  end.

End effects.

(* ===================================================================== *)
(** * Resolving the state scheme *)
(* ===================================================================== *)

Module statescheme.
Import effects.

(** Modelled from the spec: [rawdb.ParseStateScheme], which [eth.New] calls
    and which belongs to package rawdb.  The database is constructed with
    the hash scheme or the path scheme exclusively, and "mixing schemes on
    one store is rejected with a configuration error"; the configuration
    documents the requested scheme as one that "can be 'hash', 'path', or
    none which means use the scheme consistent with persistent state".  The
    scheme of a store that holds no state yet, when none is requested, is
    not fixed by these words: it is the parameter [fallback]. *)
Definition ParseStateScheme (fallback : rawdb.scheme)
    (provided : string) (disk : rawdb.ChainDb) : returned string :=
  let stored := rawdb.ReadStateScheme disk in
  if decide (provided = EmptyString) then
    if decide (stored = EmptyString)
    then Ok (rawdb.scheme_name fallback)
    else Ok stored
  else if decide (provided <> rawdb.HashScheme /\ provided <> rawdb.PathScheme)
  then Err (ErrInvalidStateScheme provided)
  else if decide (stored = EmptyString \/ provided = stored)
  then Ok provided
  else Err (ErrIncompatibleStateScheme stored provided).

End statescheme.

Declare Scope go_scope.
Delimit Scope go_scope with go.
Notation "x <- m ;; k" := (effects.bind m (fun x => k))
  (at level 100, m at next level, right associativity) : go_scope.
Notation "m ;; k" := (effects.bind m (fun _ => k))
  (at level 100, right associativity) : go_scope.

(* ===================================================================== *)
(** * Package ethconfig: the configuration of the node *)
(* ===================================================================== *)

Module ethconfig.
Import effects.

(** [type Config struct].  The fields that hold values of other packages
    ([Genesis], [Miner] apart from its gas price, [TxPool], [BlobPool], [GPO],
    [RequiredBlocks]) are passed on unread and are left out. *)
Record Config := {
  NetworkId : Z;
  SyncMode : Z;
  NoPruning : bool;
  NoPrefetch : bool;
  TransactionHistory : Z;
  StateHistory : Z;
  StateScheme : string;
  SkipBcVersionCheck : bool;
  DatabaseHandles : Z;
  DatabaseCache : Z;
  DatabaseFreezer : string;
  TrieCleanCache : Z;
  TrieDirtyCache : Z;
  TrieTimeout : Z;
  SnapshotCache : Z;
  Preimages : bool;
  MinerGasPrice : option Z;
  EnablePreimageRecording : bool;
  VMTrace : string;
  VMTraceJsonConfig : string;
  OverrideCancun : option Z;
  OverrideVerkle : option Z
}.

(** Assignments to single fields of [*config]. *)
Definition set_TrieCleanCache (v : Z) (c : Config) : Config :=
  {| NetworkId := NetworkId c; SyncMode := SyncMode c;
     NoPruning := NoPruning c; NoPrefetch := NoPrefetch c;
     TransactionHistory := TransactionHistory c;
     StateHistory := StateHistory c; StateScheme := StateScheme c;
     SkipBcVersionCheck := SkipBcVersionCheck c;
     DatabaseHandles := DatabaseHandles c; DatabaseCache := DatabaseCache c;
     DatabaseFreezer := DatabaseFreezer c;
     TrieCleanCache := v;
     TrieDirtyCache := TrieDirtyCache c; TrieTimeout := TrieTimeout c;
     SnapshotCache := SnapshotCache c; Preimages := Preimages c;
     MinerGasPrice := MinerGasPrice c;
     EnablePreimageRecording := EnablePreimageRecording c;
     VMTrace := VMTrace c; VMTraceJsonConfig := VMTraceJsonConfig c;
     OverrideCancun := OverrideCancun c; OverrideVerkle := OverrideVerkle c |}.

Definition set_TrieDirtyCache (v : Z) (c : Config) : Config :=
  {| NetworkId := NetworkId c; SyncMode := SyncMode c;
     NoPruning := NoPruning c; NoPrefetch := NoPrefetch c;
     TransactionHistory := TransactionHistory c;
     StateHistory := StateHistory c; StateScheme := StateScheme c;
     SkipBcVersionCheck := SkipBcVersionCheck c;
     DatabaseHandles := DatabaseHandles c; DatabaseCache := DatabaseCache c;
     DatabaseFreezer := DatabaseFreezer c;
     TrieCleanCache := TrieCleanCache c;
     TrieDirtyCache := v; TrieTimeout := TrieTimeout c;
     SnapshotCache := SnapshotCache c; Preimages := Preimages c;
     MinerGasPrice := MinerGasPrice c;
     EnablePreimageRecording := EnablePreimageRecording c;
     VMTrace := VMTrace c; VMTraceJsonConfig := VMTraceJsonConfig c;
     OverrideCancun := OverrideCancun c; OverrideVerkle := OverrideVerkle c |}.

Definition set_SnapshotCache (v : Z) (c : Config) : Config :=
  {| NetworkId := NetworkId c; SyncMode := SyncMode c;
     NoPruning := NoPruning c; NoPrefetch := NoPrefetch c;
     TransactionHistory := TransactionHistory c;
     StateHistory := StateHistory c; StateScheme := StateScheme c;
     SkipBcVersionCheck := SkipBcVersionCheck c;
     DatabaseHandles := DatabaseHandles c; DatabaseCache := DatabaseCache c;
     DatabaseFreezer := DatabaseFreezer c;
     TrieCleanCache := TrieCleanCache c;
     TrieDirtyCache := TrieDirtyCache c; TrieTimeout := TrieTimeout c;
     SnapshotCache := v; Preimages := Preimages c;
     MinerGasPrice := MinerGasPrice c;
     EnablePreimageRecording := EnablePreimageRecording c;
     VMTrace := VMTrace c; VMTraceJsonConfig := VMTraceJsonConfig c;
     OverrideCancun := OverrideCancun c; OverrideVerkle := OverrideVerkle c |}.

Definition set_MinerGasPrice (v : option Z) (c : Config) : Config :=
  {| NetworkId := NetworkId c; SyncMode := SyncMode c;
     NoPruning := NoPruning c; NoPrefetch := NoPrefetch c;
     TransactionHistory := TransactionHistory c;
     StateHistory := StateHistory c; StateScheme := StateScheme c;
     SkipBcVersionCheck := SkipBcVersionCheck c;
     DatabaseHandles := DatabaseHandles c; DatabaseCache := DatabaseCache c;
     DatabaseFreezer := DatabaseFreezer c;
     TrieCleanCache := TrieCleanCache c;
     TrieDirtyCache := TrieDirtyCache c; TrieTimeout := TrieTimeout c;
     SnapshotCache := SnapshotCache c; Preimages := Preimages c;
     MinerGasPrice := v;
     EnablePreimageRecording := EnablePreimageRecording c;
     VMTrace := VMTrace c; VMTraceJsonConfig := VMTraceJsonConfig c;
     OverrideCancun := OverrideCancun c; OverrideVerkle := OverrideVerkle c |}.

(** The consensus engines [CreateConsensusEngine] builds. *)
Inductive Engine := BeaconClique | BeaconEthashFaker.

(** [func CreateConsensusEngine(config, db)] *)
Definition CreateConsensusEngine (config : params.ChainConfig)
  : returned Engine :=
  match params.TerminalTotalDifficulty config with
  | None => Err ErrMissingTerminalTotalDifficulty
  | Some _ =>
    match params.Clique config with
    | Some _ => Ok BeaconClique
    | None => Ok BeaconEthashFaker
    end
  end.

End ethconfig.

(* ===================================================================== *)
(** * Package eth: the full node service (eth/backend.go) *)
(* ===================================================================== *)

Module eth.
Import effects ethconfig.
Local Open Scope go_scope.

(** What the packages that are not modelled answer when [New] calls them. *)
Record Env := {
  (** [downloader.SyncMode.IsValid] *)
  SyncMode_IsValid : Z -> bool;
  (** [ethconfig.Defaults.Miner.GasPrice] *)
  Defaults_Miner_GasPrice : Z;
  (** [stack.OpenDatabaseWithFreezer("chaindata", ...)] *)
  env_OpenDatabaseWithFreezer : returned rawdb.ChainDb;
  (** [rawdb.ParseStateScheme] *)
  env_ParseStateScheme : string -> rawdb.ChainDb -> returned string;
  (** [core.LoadChainConfig]: an error, or a chain configuration (the
      pointer is not nil; the pointers inside it may be) *)
  env_LoadChainConfig : rawdb.ChainDb -> returned params.ChainConfig;
  (** [core.BlockChainVersion] *)
  BlockChainVersion : Z;
  (** [tracers.LiveDirectory.New] *)
  env_TracersNew : string -> string -> option error;
  (** [core.NewBlockChain] *)
  env_NewBlockChain : rawdb.ChainDb -> core.CacheConfig -> option error;
  (** [txpool.New] *)
  env_TxPoolNew : option error;
  (** [newHandler] *)
  env_NewHandler : option error
}.

(** [type rajchain struct], the fields that [New] and [Stop] depend on.
    [closeBloomHandler] is a channel: [true] once it has been closed. *)
Record rajchain := {
  config : Config;
  chainDb : rawdb.ChainDb;
  engine : Engine;
  networkID : Z;
  gasPrice : option Z;
  closeBloomHandler : bool
}.

(** Lines 110-113 of [New]: an invalid miner gas price is replaced. *)
Definition sanitizeGasPrice (env : Env) (config : Config) : Config :=
  match MinerGasPrice config with
  | None => set_MinerGasPrice (Some (Defaults_Miner_GasPrice env)) config
  | Some p =>
    if p <=? 0
    then set_MinerGasPrice (Some (Defaults_Miner_GasPrice env)) config
    else config
  end.

(** Lines 114-122 of [New]: without pruning the dirty cache is given to the
    clean cache and the snapshot cache. *)
Definition sanitizeCaches (config : Config) : Config :=
  if NoPruning config && (TrieDirtyCache config >? 0) then
    let config :=
      if SnapshotCache config >? 0 then
        let config :=
          set_TrieCleanCache
            (goint.add (TrieCleanCache config)
               (goint.div (goint.mul (TrieDirtyCache config) 3) 5)) config in
        set_SnapshotCache
          (goint.add (SnapshotCache config)
             (goint.div (goint.mul (TrieDirtyCache config) 2) 5)) config
      else
        set_TrieCleanCache
          (goint.add (TrieCleanCache config) (TrieDirtyCache config)) config in
    set_TrieDirtyCache 0 config
  else config.

(** Lines 189-199 of [New]. *)
Definition makeCacheConfig (config : Config) (scheme : string)
  : core.CacheConfig :=
  {| core.TrieCleanLimit := TrieCleanCache config;
     core.TrieCleanNoPrefetch := NoPrefetch config;
     core.TrieDirtyLimit := TrieDirtyCache config;
     core.TrieDirtyDisabled := NoPruning config;
     core.TrieTimeLimit := TrieTimeout config;
     core.SnapshotLimit := SnapshotCache config;
     core.Preimages := Preimages config;
     core.StateHistory := StateHistory config;
     core.StateScheme := scheme |}.

(** Lines 175-184 of [New]: the check of the database version. *)
Definition checkDatabaseVersion (env : Env) (config : Config)
    (chainDb : rawdb.ChainDb) : M rawdb.ChainDb :=
  let bcVersion := rawdb.ReadDatabaseVersion chainDb in
  let newer := match bcVersion with
               | Some v => v >? BlockChainVersion env
               | None => false
               end in
  let absent_or_older := match bcVersion with
                         | None => true
                         | Some v => v <? BlockChainVersion env
                         end in
  if negb (SkipBcVersionCheck config) then
    if newer then
      fail (ErrDatabaseVersion (default 0 bcVersion) (BlockChainVersion env))
    else if absent_or_older then
      emit (WriteDatabaseVersion (BlockChainVersion env)) ;;
      ret (rawdb.WriteDatabaseVersion chainDb (BlockChainVersion env))
    else ret chainDb
  else ret chainDb.

(** [chainConfig.ChainID.Uint64()], line 151 of [New]: the method reads the
    magnitude through the pointer [ChainID], and Go panics when that pointer
    is nil. *)
Definition ChainID_Uint64 (chainConfig : params.ChainConfig) : M Z :=
  match params.ChainID chainConfig with
  | None =>
    panic "runtime error: invalid memory address or nil pointer dereference"
  | Some id => ret (bigint.Uint64 id)
  end.

(** [func New(stack, config)]: returns the node service or an error. *)
Definition New (env : Env) (config : Config) : M rajchain :=
  (* Ensure configuration values are compatible and sane *)
  if negb (SyncMode_IsValid env (SyncMode config)) then
    fail (ErrInvalidSyncMode (SyncMode config))
  else
  let config := sanitizeGasPrice env config in
  let config := sanitizeCaches config in
  (* Assemble the rajchain object *)
  chainDb <- call OpenDatabaseWithFreezer (env_OpenDatabaseWithFreezer env) ;;
  scheme <- call (ParseStateScheme (StateScheme config))
                 (env_ParseStateScheme env (StateScheme config) chainDb) ;;
  (* Try to recover offline state pruning only in hash-based. *)
  (if decide (scheme = rawdb.HashScheme)
   then emit RecoverPruning   (* an error is logged, not returned *)
   else ret tt) ;;
  chainConfig <- call LoadChainConfig (env_LoadChainConfig env chainDb) ;;
  engine <- pure (CreateConsensusEngine chainConfig) ;;
  networkID <- (if NetworkId config =? 0 then ChainID_Uint64 chainConfig
                else ret (NetworkId config)) ;;
  emit NewBloomIndexer ;;
  emit NewShutdownTracker ;;
  emit ReadDatabaseVersion ;;
  chainDb <- checkDatabaseVersion env config chainDb ;;
  let cacheConfig := makeCacheConfig config scheme in
  (if decide (VMTrace config <> EmptyString) then
     let traceConfig :=
       if decide (VMTraceJsonConfig config <> EmptyString)
       then VMTraceJsonConfig config else "{}"%string in
     match env_TracersNew env (VMTrace config) traceConfig with
     | Some err =>
       call (TracersNew (VMTrace config) traceConfig)
            (Err (ErrCreateTracer (VMTrace config) err))
     | None => emit (TracersNew (VMTrace config) traceConfig)
     end
   else ret tt) ;;
  call_err (NewBlockChain chainDb cacheConfig)
           (env_NewBlockChain env chainDb cacheConfig) ;;
  emit BloomIndexerStart ;;
  emit BlobPoolNew ;;
  emit LegacyPoolNew ;;
  call_err TxPoolNew (env_TxPoolNew env) ;;
  (* Permit the downloader to use the trie cache allowance during fast sync *)
  let cacheLimit :=
    goint.add (goint.add (core.TrieCleanLimit cacheConfig)
                         (core.TrieDirtyLimit cacheConfig))
              (core.SnapshotLimit cacheConfig) in
  call_err (NewHandler (goint.to_uint64 cacheLimit)) (env_NewHandler env) ;;
  emit MinerNew ;;
  emit NewOracle ;;
  (* Start the RPC service *)
  emit NewNetAPI ;;
  (* Register the backend on the node *)
  emit RegisterAPIs ;;
  emit RegisterProtocols ;;
  emit RegisterLifecycle ;;
  (* Successful startup; push a marker and check previous unclean shutdowns. *)
  emit MarkStartup ;;
  ret {| config := config;
         chainDb := chainDb;
         engine := engine;
         networkID := networkID;
         gasPrice := MinerGasPrice config;
         closeBloomHandler := false |}.

(** [close(s.closeBloomHandler)]: closing a closed channel panics. *)
Definition close_closeBloomHandler (s : rajchain) : M rajchain :=
  if closeBloomHandler s then panic "close of closed channel"
  else
    emit CloseBloomHandler ;;
    ret {| config := config s;
           chainDb := chainDb s;
           engine := engine s;
           networkID := networkID s;
           gasPrice := gasPrice s;
           closeBloomHandler := true |}.

(** [func (s) Stop() error]; the error returned is always nil. *)
Definition Stop (s : rajchain) : M rajchain :=
  (* Stop all the peer-related stuff first. *)
  emit DiscmixClose ;;
  emit HandlerStop ;;
  (* Then stop everything else. *)
  emit BloomIndexerClose ;;
  s <- close_closeBloomHandler s ;;
  emit TxPoolClose ;;
  emit BlockchainStop ;;
  emit EngineClose ;;
  (* Clean shutdown marker as the last thing before closing db *)
  emit ShutdownTrackerStop ;;
  emit ChainDbClose ;;
  emit EventMuxStop ;;
  ret s.

End eth.

(* ===================================================================== *)
(** * Package pathdb: the layer tree of the path scheme *)
(* ===================================================================== *)

Module pathdb.
Import common.

(** A node of the path scheme is identified by its owner and its path. *)
Abbreviation NodeKey := (Hash * string)%type (only parsing).

Inductive error :=
| NotFoundError
| ParentNotFoundError
| RootUnknownError.

Inductive result (A : Type) : Type :=
| Ok (a : A)
| Err (e : error).
Arguments Ok {A} a.
Arguments Err {A} e.

(** Modelled from the spec: a diff layer, "an immutable snapshot delta: a
    new state root, a reference to its parent layer, a generation id, and
    the node-level writes".  The reference to the parent is the position in
    the chain of [LayerTree]. *)
Record DiffLayer := {
  root : Hash;
  generation : nat;
  nodes : gmap NodeKey bytes
}.

(** Modelled from the spec: the disk layer, "the last state fully persisted
    to durable storage". *)
Record DiskLayer := {
  disk_root : Hash;
  disk_generation : nat;
  disk_nodes : gmap NodeKey bytes
}.

(** Modelled from the spec: the layer tree, "a chain of immutable in-memory
    diff layers rooted at a single persistent disk layer".  [diffs] lists
    the chain from its tail (the newest layer) to the layer above the disk
    layer; the parent of a layer is the next one in the list, and the parent
    of the last one is the disk layer. *)
Record LayerTree := {
  disk : DiskLayer;
  diffs : list DiffLayer
}.

Definition tail_root (t : LayerTree) : Hash :=
  match diffs t with
  | l :: _ => root l
  | [] => disk_root (disk t)
  end.

Definition tail_generation (t : LayerTree) : nat :=
  match diffs t with
  | l :: _ => generation l
  | [] => disk_generation (disk t)
  end.

(** Modelled from the spec: [Commit(parentRoot, writes)] "fails with
    ParentNotFoundError if absent or if parentRoot does not match the
    current chain tail"; otherwise it constructs "a new Diff layer
    referencing it", appends it to the chain and returns the new root.  The
    new root comes with the commit. *)
Definition Commit (t : LayerTree) (parentRoot newRoot : Hash)
    (writes : gmap NodeKey bytes) : result (LayerTree * Hash) :=
  if decide (parentRoot = tail_root t) then
    Ok ({| disk := disk t;
           diffs := {| root := newRoot;
                       generation := S (tail_generation t);
                       nodes := writes |} :: diffs t |}, newRoot)
  else Err ParentNotFoundError.

(** A reader is bound to one layer: it holds that layer and its ancestors. *)
Record Reader := {
  reader_layers : list DiffLayer;
  reader_disk : DiskLayer
}.

(** The part of the chain that starts at the layer with the given root. *)
Fixpoint find_layer (r : Hash) (ls : list DiffLayer)
  : option (list DiffLayer) :=
  match ls with
  | [] => None
  | l :: ls' => if decide (root l = r) then Some ls else find_layer r ls'
  end.

(** Modelled from the spec: [OpenReader(root) -> Reader | RootUnknownError]. *)
Definition OpenReader (t : LayerTree) (r : Hash) : result Reader :=
  match find_layer r (diffs t) with
  | Some ls => Ok {| reader_layers := ls; reader_disk := disk t |}
  | None =>
    if decide (disk_root (disk t) = r)
    then Ok {| reader_layers := []; reader_disk := disk t |}
    else Err RootUnknownError
  end.

(** The lookup of a node: the layer itself, then its ancestors in turn, then
    the disk layer. *)
Fixpoint lookup_layers (k : NodeKey) (ls : list DiffLayer) (d : DiskLayer)
  : option bytes :=
  match ls with
  | [] => disk_nodes d !! k
  | l :: ls' =>
    match nodes l !! k with
    | Some v => Some v
    | None => lookup_layers k ls' d
    end
  end.

(** Modelled from the spec: [Reader.Node -> bytes | NotFoundError]. *)
Definition Node (rd : Reader) (k : NodeKey) : result bytes :=
  match lookup_layers k (reader_layers rd) (reader_disk rd) with
  | Some v => Ok v
  | None => Err NotFoundError
  end.

(** One commit of a sequence: its parent root, its new root, its writes. *)
Record commit := {
  commit_parent : Hash;
  commit_root : Hash;
  commit_writes : gmap NodeKey bytes
}.

(** The commits applied one after the other; the first failure stops. *)
Fixpoint commit_all (t : LayerTree) (cs : list commit) : result LayerTree :=
  match cs with
  | [] => Ok t
  | c :: cs' =>
    match Commit t (commit_parent c) (commit_root c) (commit_writes c) with
    | Ok (t', _) => commit_all t' cs'
    | Err e => Err e
    end
  end.

(** The tree that holds the disk layer alone. *)
Definition disk_only (d : DiskLayer) : LayerTree :=
  {| disk := d; diffs := [] |}.

(** The diff layers that the commits [cs] make on top of generation [g],
    oldest first. *)
Fixpoint layers_of (g : nat) (cs : list commit) : list DiffLayer :=
  match cs with
  | [] => []
  | c :: cs' =>
    {| root := commit_root c; generation := S g; nodes := commit_writes c |}
      :: layers_of (S g) cs'
  end.

(** A sequence of commits forms a single linear chain from the root [r0]
    when each commit extends the root of the one before it. *)
Fixpoint linear_chain (r0 : Hash) (cs : list commit) : Prop :=
  match cs with
  | [] => True
  | c :: cs' => commit_parent c = r0 /\ linear_chain (commit_root c) cs'
  end.

(** The root of generation [i]: [r0] for generation 0, the root of the
    [i]-th commit otherwise. *)
Definition root_at (r0 : Hash) (cs : list commit) (i : nat) : option Hash :=
  match i with
  | O => Some r0
  | S j => commit_root <$> cs !! j
  end.

(** What generation [i] wrote at key [k]: generation 0 is the content of
    the disk layer, generation [i > 0] the writes of the [i]-th commit. *)
Definition written_at (d : DiskLayer) (cs : list commit) (i : nat)
    (k : NodeKey) : option bytes :=
  match i with
  | O => disk_nodes d !! k
  | S j => cs !! j ≫= fun c => commit_writes c !! k
  end.

(** [v] is the value written to [k] at or before generation [i]: some
    generation [j <= i] wrote it and no generation after [j] up to [i] wrote
    [k] again. *)
Definition latest_write (d : DiskLayer) (cs : list commit) (i : nat)
    (k : NodeKey) (v : bytes) : Prop :=
  exists j, (j <= i)%nat /\ written_at d cs j k = Some v /\
    forall j', (j < j' <= i)%nat -> written_at d cs j' k = None.

End pathdb.

(* ===================================================================== *)
(** * The redistribution of the dirty cache, as specified *)
(* ===================================================================== *)

Module cachespec.
Import ethconfig.

(** The specification of the cache sanitization of [eth.New], in exact
    integer arithmetic ([/] rounds down): [c] is the configuration before
    and [c'] the one after.  The dirty cache is emptied; with a snapshot
    cache the clean cache grows by [d*3/5] and the snapshot cache by
    [d*2/5], otherwise the clean cache grows by [d]; the combined growth is
    at most [d]. *)
Definition redistributed_exactly (c c' : Config) : Prop :=
  let d := TrieDirtyCache c in
  TrieDirtyCache c' = 0 /\
  (if SnapshotCache c >? 0 then
     TrieCleanCache c' = TrieCleanCache c + d * 3 / 5 /\
     SnapshotCache c' = SnapshotCache c + d * 2 / 5
   else
     TrieCleanCache c' = TrieCleanCache c + d /\
     SnapshotCache c' = SnapshotCache c) /\
  (TrieCleanCache c' - TrieCleanCache c)
  + (SnapshotCache c' - SnapshotCache c) <= d.

(** The three cache sizes are values of type [int]. *)
Definition caches_in_int (c : Config) : Prop :=
  goint.in_int (TrieCleanCache c) /\
  goint.in_int (TrieDirtyCache c) /\
  goint.in_int (SnapshotCache c).

(** No step of the redistribution exceeds the largest [int]. *)
Definition no_overflow (c : Config) : Prop :=
  let d := TrieDirtyCache c in
  if SnapshotCache c >? 0 then
    d * 3 <= goint.MaxInt /\
    TrieCleanCache c + d * 3 / 5 <= goint.MaxInt /\
    SnapshotCache c + d * 2 / 5 <= goint.MaxInt
  else
    TrieCleanCache c + d <= goint.MaxInt.

End cachespec.

(* ===================================================================== *)
(** * Conditions on a run of New *)
(* ===================================================================== *)

Module newspec.
Import effects ethconfig eth.

(** [New] gets as far as the check of the database version: the sync mode
    is valid, the state scheme is resolved, the chain configuration is
    loaded, it names a terminal total difficulty and, when no network id is
    configured, a chain id (line 151 dereferences it). *)
Definition reaches_version_check (env : Env) (c : Config)
    (db : rawdb.ChainDb) : Prop :=
  SyncMode_IsValid env (SyncMode c) = true /\
  exists scheme chainConfig,
    env_ParseStateScheme env (StateScheme c) db = Ok scheme /\
    env_LoadChainConfig env db = Ok chainConfig /\
    params.TerminalTotalDifficulty chainConfig <> None /\
    (NetworkId c = 0 -> params.ChainID chainConfig <> None).

(** [New] gets as far as line 151 with no network id configured and a chain
    configuration whose [ChainID] is the nil pointer. *)
Definition nil_chain_id_at_line_151 (env : Env) (c : Config) : Prop :=
  SyncMode_IsValid env (SyncMode c) = true /\
  NetworkId c = 0 /\
  exists db scheme chainConfig,
    env_OpenDatabaseWithFreezer env = Ok db /\
    env_ParseStateScheme env (StateScheme c) db = Ok scheme /\
    env_LoadChainConfig env db = Ok chainConfig /\
    params.TerminalTotalDifficulty chainConfig <> None /\
    params.ChainID chainConfig = None.

(** No tracer is configured, or the tracer is created without an error. *)
Definition tracer_succeeds (env : Env) (c : Config) : Prop :=
  VMTrace c = EmptyString \/
  forall traceConfig, env_TracersNew env (VMTrace c) traceConfig = None.

(** The persisted scheme of [db] conflicts with the one that [c] requests. *)
Definition scheme_conflict (c : Config) (db : rawdb.ChainDb) : Prop :=
  exists k, rawdb.db_scheme db = Some k /\
    StateScheme c <> EmptyString /\
    StateScheme c <> rawdb.scheme_name k.

End newspec.

(* ===================================================================== *)
(** * Concrete inputs used in examples *)
(* ===================================================================== *)

Module examples.

(** A constructor of [pathdb.StateSetWithOrigin] that stores the two origin
    mappings. *)
Definition origin_pair_constructor
    (ao : gomap common.Address bytes)
    (so : gomap common.Address (gomap common.Hash bytes))
  : option (gomap common.Address bytes
            * gomap common.Address (gomap common.Hash bytes)) :=
  Some (ao, so).

(** The default settings of the node ([ethconfig.Defaults]); an archive
    node sets [NoPruning]. *)
Definition Defaults : ethconfig.Config :=
  {| ethconfig.NetworkId := 0;
     ethconfig.SyncMode := 1;
     ethconfig.NoPruning := false;
     ethconfig.NoPrefetch := false;
     ethconfig.TransactionHistory := 2350000;
     ethconfig.StateHistory := 90000;
     ethconfig.StateScheme := EmptyString;
     ethconfig.SkipBcVersionCheck := false;
     ethconfig.DatabaseHandles := 0;
     ethconfig.DatabaseCache := 512;
     ethconfig.DatabaseFreezer := EmptyString;
     ethconfig.TrieCleanCache := 154;
     ethconfig.TrieDirtyCache := 256;
     ethconfig.TrieTimeout := 3600000000000;
     ethconfig.SnapshotCache := 102;
     ethconfig.Preimages := false;
     ethconfig.MinerGasPrice := Some 1000000;
     ethconfig.EnablePreimageRecording := false;
     ethconfig.VMTrace := EmptyString;
     ethconfig.VMTraceJsonConfig := EmptyString;
     ethconfig.OverrideCancun := None;
     ethconfig.OverrideVerkle := None |}.

Definition archive (c : ethconfig.Config) : ethconfig.Config :=
  {| ethconfig.NetworkId := ethconfig.NetworkId c;
     ethconfig.SyncMode := ethconfig.SyncMode c;
     ethconfig.NoPruning := true;
     ethconfig.NoPrefetch := ethconfig.NoPrefetch c;
     ethconfig.TransactionHistory := ethconfig.TransactionHistory c;
     ethconfig.StateHistory := ethconfig.StateHistory c;
     ethconfig.StateScheme := ethconfig.StateScheme c;
     ethconfig.SkipBcVersionCheck := ethconfig.SkipBcVersionCheck c;
     ethconfig.DatabaseHandles := ethconfig.DatabaseHandles c;
     ethconfig.DatabaseCache := ethconfig.DatabaseCache c;
     ethconfig.DatabaseFreezer := ethconfig.DatabaseFreezer c;
     ethconfig.TrieCleanCache := ethconfig.TrieCleanCache c;
     ethconfig.TrieDirtyCache := ethconfig.TrieDirtyCache c;
     ethconfig.TrieTimeout := ethconfig.TrieTimeout c;
     ethconfig.SnapshotCache := ethconfig.SnapshotCache c;
     ethconfig.Preimages := ethconfig.Preimages c;
     ethconfig.MinerGasPrice := ethconfig.MinerGasPrice c;
     ethconfig.EnablePreimageRecording := ethconfig.EnablePreimageRecording c;
     ethconfig.VMTrace := ethconfig.VMTrace c;
     ethconfig.VMTraceJsonConfig := ethconfig.VMTraceJsonConfig c;
     ethconfig.OverrideCancun := ethconfig.OverrideCancun c;
     ethconfig.OverrideVerkle := ethconfig.OverrideVerkle c |}.

(** The configuration [c] with the state scheme [scheme] requested. *)
Definition request_scheme (scheme : string) (c : ethconfig.Config)
  : ethconfig.Config :=
  {| ethconfig.NetworkId := ethconfig.NetworkId c;
     ethconfig.SyncMode := ethconfig.SyncMode c;
     ethconfig.NoPruning := ethconfig.NoPruning c;
     ethconfig.NoPrefetch := ethconfig.NoPrefetch c;
     ethconfig.TransactionHistory := ethconfig.TransactionHistory c;
     ethconfig.StateHistory := ethconfig.StateHistory c;
     ethconfig.StateScheme := scheme;
     ethconfig.SkipBcVersionCheck := ethconfig.SkipBcVersionCheck c;
     ethconfig.DatabaseHandles := ethconfig.DatabaseHandles c;
     ethconfig.DatabaseCache := ethconfig.DatabaseCache c;
     ethconfig.DatabaseFreezer := ethconfig.DatabaseFreezer c;
     ethconfig.TrieCleanCache := ethconfig.TrieCleanCache c;
     ethconfig.TrieDirtyCache := ethconfig.TrieDirtyCache c;
     ethconfig.TrieTimeout := ethconfig.TrieTimeout c;
     ethconfig.SnapshotCache := ethconfig.SnapshotCache c;
     ethconfig.Preimages := ethconfig.Preimages c;
     ethconfig.MinerGasPrice := ethconfig.MinerGasPrice c;
     ethconfig.EnablePreimageRecording := ethconfig.EnablePreimageRecording c;
     ethconfig.VMTrace := ethconfig.VMTrace c;
     ethconfig.VMTraceJsonConfig := ethconfig.VMTraceJsonConfig c;
     ethconfig.OverrideCancun := ethconfig.OverrideCancun c;
     ethconfig.OverrideVerkle := ethconfig.OverrideVerkle c |}.

(** An archive node whose dirty cache is 2^62 megabytes: three times that
    size is more than an [int] holds. *)
Definition huge_dirty_cache : ethconfig.Config :=
  ethconfig.set_SnapshotCache 1
    (ethconfig.set_TrieCleanCache 0
       (ethconfig.set_TrieDirtyCache (2 ^ 62) (archive Defaults))).

(** A chain database that holds state, in the given scheme, at the given
    database version. *)
Definition database (k : rawdb.scheme) (version : option Z)
  : rawdb.ChainDb :=
  {| rawdb.db_scheme := Some k; rawdb.db_version := version |}.

(** An environment in which every call succeeds: the chain database is
    [db], the state scheme is resolved by [statescheme.ParseStateScheme]
    with the hash scheme as fallback, the chain is a proof-of-stake main
    net, and the node supports database version 9. *)
Definition env_ok (db : rawdb.ChainDb) : eth.Env :=
  {| eth.SyncMode_IsValid := fun m => (0 <=? m) && (m <=? 1);
     eth.Defaults_Miner_GasPrice := 1000000;
     eth.env_OpenDatabaseWithFreezer := effects.Ok db;
     eth.env_ParseStateScheme := statescheme.ParseStateScheme rawdb.Hash;
     eth.env_LoadChainConfig := fun _ =>
       effects.Ok {| params.ChainID := Some 1;
                     params.TerminalTotalDifficulty :=
                       Some 58750000000000000000000;
                     params.Clique := None |};
     eth.BlockChainVersion := 9;
     eth.env_TracersNew := fun _ _ => None;
     eth.env_NewBlockChain := fun _ _ => None;
     eth.env_TxPoolNew := None;
     eth.env_NewHandler := None |}.

(** The scenario of the specification: the genesis root R0 on disk, block 1
    writes account A = 100 and gives R1, block 2 writes A = 150 and gives
    R2. *)
Definition R0 : common.Hash := common.mkHash 0.
Definition R1 : common.Hash := common.mkHash 1.
Definition R2 : common.Hash := common.mkHash 2.

Definition account_A : common.Hash * string := (common.mkHash 0, "A"%string).

Definition genesis_disk : pathdb.DiskLayer :=
  {| pathdb.disk_root := R0;
     pathdb.disk_generation := 0;
     pathdb.disk_nodes := ∅ |}.

Definition two_blocks : list pathdb.commit :=
  [ {| pathdb.commit_parent := R0;
       pathdb.commit_root := R1;
       pathdb.commit_writes := {[ account_A := [Byte.x64] ]} |};
    {| pathdb.commit_parent := R1;
       pathdb.commit_root := R2;
       pathdb.commit_writes := {[ account_A := [Byte.x96] ]} |} ].

(** A linear chain in which a root repeats: block 1 writes A = 100 and gives
    R1, block 2 writes A = 150 and gives the root R0 again. *)
Definition returning_chain : list pathdb.commit :=
  [ {| pathdb.commit_parent := R0;
       pathdb.commit_root := R1;
       pathdb.commit_writes := {[ account_A := [Byte.x64] ]} |};
    {| pathdb.commit_parent := R1;
       pathdb.commit_root := R0;
       pathdb.commit_writes := {[ account_A := [Byte.x96] ]} |} ].

End examples.

(* ===================================================================== *)
(** * Counting bytes and pieces of a string *)
(* ===================================================================== *)

Module bytecount.
Import gostring.

(** [strings.Count(s, c)] for a single byte [c]. *)
Fixpoint count_byte (c : ascii) (s : string) : nat :=
  match s with
  | EmptyString => 0%nat
  | String b s' =>
    if decide (b = c) then S (count_byte c s') else count_byte c s'
  end.

(** The piece starts with a byte that is not ASCII. *)
Definition starts_wide (p : string) : bool :=
  match p with
  | EmptyString => false
  | String b _ => 0x80 <=? rune_of_byte b
  end.

(** How many pieces after the first start with a byte that is not ASCII. *)
Definition wide_pieces (str : string) : nat :=
  length (List.filter starts_wide (tail (Split "_"%char str))).

End bytecount.

(* ===================================================================== *)
(** * Package eth: more of the node service (eth/backend.go) *)
(* ===================================================================== *)

Module tracekinds.
Import effects.

(** More classes of events. *)
Definition is_OpenDatabaseWithFreezer (e : Event) : bool :=
  match e with OpenDatabaseWithFreezer => true | _ => false end.
Definition is_TracersNew (e : Event) : bool :=
  match e with TracersNew _ _ => true | _ => false end.

(** The argument of a call of [tracers.LiveDirectory.New] in [New]: the
    name is the configured tracer, which is not empty, and the tracer
    configuration is the configured one, or the empty JSON object. *)
Definition tracer_call_of (c : ethconfig.Config) (e : Event) : Prop :=
  match e with
  | TracersNew name traceConfig =>
    name = ethconfig.VMTrace c /\
    name <> EmptyString /\
    traceConfig
    = (if decide (ethconfig.VMTraceJsonConfig c = EmptyString)
       then "{}"%string else ethconfig.VMTraceJsonConfig c)
  | _ => True
  end.

End tracekinds.

Module ethmore.
Import effects ethconfig eth.

(** [func makeExtraData(extra []byte) []byte].  The default extra data is
    the RLP encoding of the version, the client name and the Go runtime; it
    is [defaultExtra] here, and [params.MaximumExtraDataSize] is
    [maximum].  A nil slice is the empty list. *)
Definition makeExtraData (defaultExtra : bytes) (maximum : Z)
    (extra : bytes) : bytes :=
  let extra :=
    if (length extra =? 0)%nat then defaultExtra (* create default extradata *)
    else extra in
  if Z.of_nat (length extra) >? maximum then []
  else extra.

Section Protocols.
(** [eth.MakeProtocols(...)] and [snap.MakeProtocols(...)]. *)
Variable Protocol : Type.
Variable ethProtocols : list Protocol.
Variable snapProtocols : list Protocol.

(** [func (s) Protocols() []p2p.Protocol] *)
Definition Protocols (s : rajchain) : list Protocol :=
  let protos := ethProtocols in
  if SnapshotCache (config s) >? 0 then protos ++ snapProtocols
  else protos.
End Protocols.

(** [func (s) ArchiveMode() bool] *)
Definition ArchiveMode (s : rajchain) : bool := NoPruning (config s).

End ethmore.

(* ===================================================================== *)
(** * Package eth: Start and setupDiscovery (eth/backend.go) *)
(* ===================================================================== *)

Module discovery.
Import effects.

(** A source of nodes that is added to the discovery mix. *)
Inductive Source :=
| DNSSource (urls : list string)
| DHTSource.

(** The calls that [Start] and [setupDiscovery] make. *)
Inductive Call :=
| StartENRUpdater
| NewDNSClient
| NewIterator (urls : list string)
| AddSource (src : Source)
| StartBloomHandlers
| ShutdownTrackerStart
| HandlerStart.

Definition is_AddSource (e : Call) : bool :=
  match e with AddSource _ => true | _ => false end.
Definition is_AddDHTSource (e : Call) : bool :=
  match e with AddSource DHTSource => true | _ => false end.
Definition is_HandlerStart (e : Call) : bool :=
  match e with HandlerStart => true | _ => false end.

Definition calls (P : Call -> bool) (t : list Call) : nat :=
  length (List.filter P t).

(** 1 for [true], 0 for [false]. *)
Definition b2n (b : bool) : nat := if b then 1%nat else 0%nat.

(** The two fields of [ethconfig.Config] that [setupDiscovery] reads. *)
Record Config := {
  EthDiscoveryURLs : list string;
  SnapDiscoveryURLs : list string
}.

(** What [setupDiscovery] gets from other packages: the outcome of
    [dnsclient.NewIterator(urls...)], and whether
    [s.p2pServer.DiscoveryV5()] is not nil. *)
Record Env := {
  env_NewIterator : list string -> option error;
  env_DiscoveryV5 : bool
}.

(** Computations that write a trace of calls and may return an error. *)
Definition W (A : Type) : Type := (list Call * returned A)%type.

Definition wret {A} (a : A) : W A := ([], Ok a).

Definition wbind {A B} (m : W A) (k : A -> W B) : W B :=
  match m with
  | (w, Ok a) => let '(w', r) := k a in (w ++ w', r)
  | (w, Err e) => (w, Err e)
  end.

Definition wemit (c : Call) : W unit := ([c], Ok tt).

(** [iter, err := dnsclient.NewIterator(urls...)] followed by the return of
    the error, or by [s.discmix.AddSource(iter)]. *)
Definition addDNSSource (env : Env) (urls : list string) : W unit :=
  if (0 <? length urls)%nat then
    match env_NewIterator env urls with
    | Some err => ([NewIterator urls], Err err)
    | None =>
      wbind (wemit (NewIterator urls)) (fun _ =>
      wemit (AddSource (DNSSource urls)))
    end
  else wret tt.

(** [func (s) setupDiscovery() error] *)
Definition setupDiscovery (env : Env) (config : Config) : W unit :=
  wbind (wemit StartENRUpdater) (fun _ =>
  (* Add eth nodes from DNS. *)
  wbind (wemit NewDNSClient) (fun _ =>
  wbind (addDNSSource env (EthDiscoveryURLs config)) (fun _ =>
  (* Add snap nodes from DNS. *)
  wbind (addDNSSource env (SnapDiscoveryURLs config)) (fun _ =>
  (* Add DHT nodes from discv5. *)
  wbind (if env_DiscoveryV5 env then wemit (AddSource DHTSource)
         else wret tt) (fun _ =>
  wret tt))))).

(** [func (s) Start() error]: the result of [setupDiscovery] is dropped. *)
Definition Start (env : Env) (config : Config) : W unit :=
  let '(w, _) := setupDiscovery env config in
  wbind (w, Ok tt) (fun _ =>
  (* Start the bloom bits servicing goroutines *)
  wbind (wemit StartBloomHandlers) (fun _ =>
  (* Regularly update shutdown marker *)
  wbind (wemit ShutdownTrackerStart) (fun _ =>
  (* Start the networking layer *)
  wbind (wemit HandlerStart) (fun _ =>
  wret tt)))).

End discovery.

(* ===================================================================== *)
(** * More concrete inputs *)
(* ===================================================================== *)

Module moreexamples.

(** A database at version 9 with state in the path scheme, and the
    environment in which every call on it succeeds. *)
Definition db9 : rawdb.ChainDb := examples.database rawdb.Path (Some 9).
Definition env9 : eth.Env := examples.env_ok db9.

(** A database at version 8, which [New] upgrades. *)
Definition db8 : rawdb.ChainDb := examples.database rawdb.Path (Some 8).
Definition env8 : eth.Env := examples.env_ok db8.

(** A chain configuration from before the merge: no terminal total
    difficulty. *)
Definition premerge : params.ChainConfig :=
  {| params.ChainID := Some 1;
     params.TerminalTotalDifficulty := None;
     params.Clique := None |}.

(** The environment [env9] with the chain configuration [premerge]. *)
Definition env_premerge : eth.Env :=
  {| eth.SyncMode_IsValid := eth.SyncMode_IsValid env9;
     eth.Defaults_Miner_GasPrice := eth.Defaults_Miner_GasPrice env9;
     eth.env_OpenDatabaseWithFreezer := eth.env_OpenDatabaseWithFreezer env9;
     eth.env_ParseStateScheme := eth.env_ParseStateScheme env9;
     eth.env_LoadChainConfig := fun _ => effects.Ok premerge;
     eth.BlockChainVersion := eth.BlockChainVersion env9;
     eth.env_TracersNew := eth.env_TracersNew env9;
     eth.env_NewBlockChain := eth.env_NewBlockChain env9;
     eth.env_TxPoolNew := eth.env_TxPoolNew env9;
     eth.env_NewHandler := eth.env_NewHandler env9 |}.

(** The cache configuration that [New] makes of the default settings on a
    database in the path scheme. *)
Definition default_cache_config : core.CacheConfig :=
  eth.makeCacheConfig (eth.sanitizeCaches examples.Defaults) rawdb.PathScheme.

(** The default settings with a miner gas price of zero. *)
Definition free_gas : ethconfig.Config :=
  ethconfig.set_MinerGasPrice (Some 0) examples.Defaults.

(** Extra data of three bytes, and a default of four. *)
Definition extra3 : bytes := [Byte.x67; Byte.x6f; Byte.x21].
Definition default_extra : bytes := [Byte.xc4; Byte.x83; Byte.x01; Byte.x0e].

End moreexamples.

(* ===================================================================== *)
(** * Theorems: state sets *)
(* ===================================================================== *)

Section StateSetFacts.
Import common triedb.

(** C1: a [StateSet] is made of exactly its four mappings (a set is
    determined by [Accounts], [AccountsOrigin], [Storages] and
    [StoragesOrigin]), and [NewStateSet] returns a non-nil set in which all
    four mappings are initialised (not the nil map) and empty. *)
Theorem NewStateSet_initialized_empty :
  (forall s : StateSet,
      s = {| Accounts := Accounts s;
             AccountsOrigin := AccountsOrigin s;
             Storages := Storages s;
             StoragesOrigin := StoragesOrigin s |}) /\
  exists s : StateSet,
    NewStateSet = Some s /\
    (Accounts s = Some ∅ /\ gomap_len (Accounts s) = 0%nat) /\
    (AccountsOrigin s = Some ∅ /\ gomap_len (AccountsOrigin s) = 0%nat) /\
    (Storages s = Some ∅ /\ gomap_len (Storages s) = 0%nat) /\
    (StoragesOrigin s = Some ∅ /\ gomap_len (StoragesOrigin s) = 0%nat).
Proof.
  split.
  - by intros [].
  - eexists. split; [reflexivity|]. cbn. repeat split.
Qed.

(** C8: for every state set pointer, the nil one included, [internal]
    returns nil exactly when the receiver is nil; otherwise it returns what
    the constructor makes of [AccountsOrigin] and [StoragesOrigin] alone, so
    that replacing [Accounts] and [Storages] by any other mappings leaves
    the result unchanged.  The constructor of package pathdb is taken to
    return a non-nil pointer. *)
Theorem internal_nil_iff_and_origin_only
    (SSWO : Type)
    (NewStateSetWithOrigin :
       gomap Address bytes -> gomap Address (gomap Hash bytes) -> option SSWO)
    (Hnonnil : forall ao so, NewStateSetWithOrigin ao so <> None)
    (set : option StateSet) :
  (internal SSWO NewStateSetWithOrigin set = None <-> set = None) /\
  (forall s, set = Some s ->
     internal SSWO NewStateSetWithOrigin set
     = NewStateSetWithOrigin (AccountsOrigin s) (StoragesOrigin s)) /\
  (forall s accounts storages, set = Some s ->
     internal SSWO NewStateSetWithOrigin
       (Some {| Accounts := accounts;
                AccountsOrigin := AccountsOrigin s;
                Storages := storages;
                StoragesOrigin := StoragesOrigin s |})
     = internal SSWO NewStateSetWithOrigin set).
Proof.
  destruct set as [s|]; cbn.
  - split; [|split].
    + split; [|discriminate]. intros H. by apply Hnonnil in H.
    + intros s' [= <-]. reflexivity.
    + intros s' ? ? [= <-]. reflexivity.
  - split; [|split]; [tauto | discriminate | discriminate].
Qed.

End StateSetFacts.

Lemma internal_nil_iff_and_origin_only_witness :
  (forall ao so, examples.origin_pair_constructor ao so <> None) /\
  (triedb.internal _ examples.origin_pair_constructor triedb.NewStateSet = None
   <-> triedb.NewStateSet = None).
Proof.
  assert (H : forall ao so, examples.origin_pair_constructor ao so <> None)
    by (intros ao so; discriminate).
  split; [exact H|].
  exact (proj1 (internal_nil_iff_and_origin_only _ examples.origin_pair_constructor H
                  triedb.NewStateSet)).
Defined.

(* ===================================================================== *)
(** * Theorems: camel *)
(* ===================================================================== *)

Section CamelFacts.
Import gostring tracetest.

Lemma Split_not_nil sep s : Split sep s <> [].
Proof.
  destruct s as [|c s]; cbn; [discriminate|].
  destruct (decide (c = sep)); [discriminate|].
  destruct (Split sep s); discriminate.
Qed.

Lemma Split_length sep s :
  (length (Split sep s) <= S (String.length s))%nat.
Proof.
  induction s as [|c s IH]; cbn; [lia|].
  destruct (decide (c = sep)); cbn; [lia|].
  destruct (Split sep s); cbn in *; lia.
Qed.

(** One turn of the loop at a non-empty piece rewrites that piece only. *)
Lemma camel_step_middle (pre : list string) b rest (post : list string) :
  camel_step (length pre) (pre ++ String b rest :: post)
  = Returns (pre ++ upperFirstByte (String b rest) :: post).
Proof.
  unfold camel_step. rewrite list_lookup_middle by reflexivity.
  rewrite insert_app_r_alt by lia.
  replace (length pre - length pre)%nat with 0%nat by lia.
  reflexivity.
Qed.

(** The loop, started at index [length pre] with enough fuel, upper-cases
    every remaining piece and leaves the pieces before the index alone. *)
Lemma camel_loop_run (post : list string) :
  forall (pre : list string) (fuel : nat),
    Forall (fun p => p <> EmptyString) post ->
    (length post < fuel)%nat ->
    camel_loop fuel (length pre) (pre ++ post)
    = Returns (pre ++ map upperFirstByte post).
Proof.
  induction post as [|p post IH]; intros pre fuel Hne Hfuel.
  - destruct fuel as [|fuel]; [cbn in Hfuel; lia|].
    cbn [camel_loop map]. rewrite app_nil_r.
    by rewrite Nat.ltb_irrefl.
  - destruct fuel as [|fuel]; [cbn in Hfuel; lia|].
    inversion Hne as [|? ? Hp Hpost]; subst.
    destruct p as [|b rest]; [congruence|].
    cbn [camel_loop].
    replace (length pre <? length (pre ++ String b rest :: post))%nat
      with true
      by (symmetry; apply Nat.ltb_lt; rewrite length_app; cbn; lia).
    rewrite camel_step_middle.
    specialize (IH (pre ++ [upperFirstByte (String b rest)]) fuel Hpost).
    rewrite length_app in IH. cbn [length] in IH.
    replace (length pre + 1)%nat with (S (length pre)) in IH by lia.
    rewrite <- !app_assoc in IH. cbn [app] in IH.
    rewrite IH by (cbn in Hfuel; lia).
    reflexivity.
Qed.

(** A piece that starts with an ASCII byte: upper-casing the first byte is
    upper-casing the first rune. *)
Lemma upperFirstByte_ascii b rest :
  rune_of_byte b < 0x80 ->
  upperFirstByte (String b rest) = upperFirstRune (String b rest).
Proof.
  intros Hb. unfold upperFirstRune, DecodeRuneInString.
  replace (rune_of_byte b <? 0x80) with true
    by (symmetry; apply Z.ltb_lt; exact Hb).
  reflexivity.
Qed.

(** The run of [camel] on an input in which no piece after the first is
    empty: it returns (it neither panics on an index out of range nor needs
    more turns of the loop than there are pieces, whatever fuel at least the
    number of pieces is given), and the bytes it returns are the pieces
    joined, each piece after the first with its first byte, taken as a code
    point, upper-cased and encoded in UTF-8.  When these pieces start with
    an ASCII byte, that is the piece with its first rune upper-cased, the
    camel case that the comment on [camel] announces. *)
Lemma camel_nonempty_pieces (str : string) :
  pieces_nonempty str ->
  exists p ps,
    Split "_"%char str = p :: ps /\
    camel str = Returns (Join (p :: map upperFirstByte ps)) /\
    (forall fuel, (length (p :: ps) <= fuel)%nat ->
       camel_fuel fuel str = camel str) /\
    (pieces_ascii str -> camel str = Returns (camel_spec str)).
Proof.
  unfold pieces_nonempty, pieces_ascii, camel, camel_spec, camel_fuel.
  intros Hne.
  pose proof (Split_length "_"%char str) as Hlen.
  destruct (Split "_"%char str) as [|p ps] eqn:Hsplit;
    [by apply Split_not_nil in Hsplit|].
  cbn [tail] in *. cbn [length] in Hlen.
  assert (Hrun : forall fuel, (length (p :: ps) <= fuel)%nat ->
            camel_loop fuel 1 (p :: ps)
            = Returns (p :: map upperFirstByte ps)).
  { intros fuel Hfuel.
    apply (camel_loop_run ps [p] fuel Hne). cbn in Hfuel. lia. }
  exists p, ps. split; [reflexivity|].
  rewrite (Hrun (S (String.length str))) by (cbn; lia).
  split; [reflexivity|]. split.
  - intros fuel Hfuel. by rewrite Hrun.
  - intros Hascii. do 3 f_equal.
    clear Hrun Hlen Hsplit.
    induction ps as [|q ps IH]; [reflexivity|].
    inversion Hne; inversion Hascii; subst. cbn [map]. f_equal.
    + destruct q as [|b rest]; [congruence|].
      by apply upperFirstByte_ascii.
    + by apply IH.
Qed.

Lemma camel_nonempty_pieces_witness :
  pieces_nonempty "call_tracer_legacy" /\
  exists p ps,
    Split "_"%char "call_tracer_legacy" = p :: ps /\
    camel "call_tracer_legacy" = Returns (Join (p :: map upperFirstByte ps)) /\
    (forall fuel, (length (p :: ps) <= fuel)%nat ->
       camel_fuel fuel "call_tracer_legacy" = camel "call_tracer_legacy") /\
    (pieces_ascii "call_tracer_legacy" ->
     camel "call_tracer_legacy" = Returns (camel_spec "call_tracer_legacy")).
Proof.
  assert (H : pieces_nonempty "call_tracer_legacy").
  { unfold pieces_nonempty. vm_compute. repeat constructor; discriminate. }
  split; [exact H|].
  exact (camel_nonempty_pieces "call_tracer_legacy" H).
Defined.

(** C10: [camel] misses the claim, and its own comment (snake case to camel
    case), on a piece that starts with a rune of more than one byte,
    because it upper-cases [rune(pieces[i][0])], the first byte, where the
    first rune is meant.  In "a_é" (bytes 61 5F C3 A9, valid UTF-8: the
    piece "é" decodes to U+00E9 in two bytes) no piece is empty and [camel]
    returns, so termination and indexing are as claimed; but the piece with
    its first rune upper-cased is "É" (C3 89), and [camel] returns the bytes
    61 C3 83 A9, whose last byte no longer decodes to a rune. *)
Theorem camel_first_rune_bug :
  let str := String "a" (String "_" (String "195" (String "169" EmptyString))) in
  pieces_nonempty str /\
  DecodeRuneInString (String "195" (String "169" EmptyString))
  = (0xE9, 2%nat) /\
  camel_spec str
  = String "a" (String "195" (String "137" EmptyString)) /\
  camel str
  = Returns (String "a" (String "195" (String "131" (String "169" EmptyString)))) /\
  camel str <> Returns (camel_spec str) /\
  DecodeRuneInString (String "169" EmptyString) = (RuneError, 1%nat).
Proof.
  cbn zeta. split; [|split; [|split; [|split; [|split]]]].
  - unfold pieces_nonempty. vm_compute. repeat constructor; discriminate.
  - vm_compute. reflexivity.
  - vm_compute. reflexivity.
  - vm_compute. reflexivity.
  - vm_compute. discriminate.
  - vm_compute. reflexivity.
Qed.

End CamelFacts.

(* ===================================================================== *)
(** * Theorems: traces *)
(* ===================================================================== *)

Section TraceFacts.
Import effects.

Lemma guarded_sound_gen P Q t :
  forall seen pre,
    (seen = true -> exists j e', (j < length pre)%nat /\ pre !! j = Some e' /\ P e' = true) ->
    guarded P Q seen t = true ->
    forall i e, (pre ++ t) !! i = Some e -> (length pre <= i)%nat -> Q e = true ->
      exists j e', (j < i)%nat /\ (pre ++ t) !! j = Some e' /\ P e' = true.
Proof.
  induction t as [|x t IH]; intros seen pre Hseen Hg i e Hi Hle HQ.
  - rewrite app_nil_r in Hi. apply lookup_lt_Some in Hi. lia.
  - cbn in Hg. apply andb_prop in Hg as [Hx Hg].
    destruct (decide (i = length pre)) as [->|Hne].
    + rewrite list_lookup_middle in Hi by reflexivity.
      injection Hi as <-. rewrite HQ in Hx. cbn in Hx.
      destruct (Hseen Hx) as (j & e' & Hj & Hl & HP).
      exists j, e'. split; [lia|]. split; [|done].
      by rewrite lookup_app_l.
    + replace (pre ++ x :: t) with ((pre ++ [x]) ++ t) in *
        by (rewrite <- app_assoc; reflexivity).
      refine (IH (seen || P x) (pre ++ [x]) _ Hg i e Hi _ HQ);
        [| rewrite length_app; cbn; lia].
      intros Hor. apply orb_prop in Hor as [Hs|Hp].
      * destruct (Hseen Hs) as (j & e' & Hj & Hl & HP).
        exists j, e'. rewrite length_app. cbn. split; [lia|].
        split; [|done]. by rewrite lookup_app_l.
      * exists (length pre), x. rewrite length_app. cbn.
        split; [lia|]. split; [|done].
        by rewrite list_lookup_middle.
Qed.

Lemma guarded_sound P Q t :
  guarded P Q false t = true -> happens_before P Q t.
Proof.
  intros Hg i e Hi HQ.
  assert (Hnone : false = true ->
            exists j e', (j < length (@nil Event))%nat /\
                         (@nil Event) !! j = Some e' /\ P e' = true)
    by discriminate.
  apply (guarded_sound_gen P Q t false [] Hnone Hg i e Hi); [cbn; lia | done].
Qed.

End TraceFacts.

(* ===================================================================== *)
(** * Theorems: shutdown *)
(* ===================================================================== *)

Section StopFacts.
Import effects eth.

(** C4: in every run of [Stop], the chain database is closed only after the
    blockchain has been stopped: [blockchain.Stop] comes before
    [shutdownTracker.Stop], and both come before [chainDb.Close].  On an
    orderly shutdown (the bloom handler channel is still open) [Stop] returns
    and makes each of the three calls exactly once; a second [Stop] panics
    when it closes the channel again and never reaches the database. *)
Theorem Stop_closes_database_after_blockchain (s : rajchain) :
  let t := trace_of (Stop s) in
  happens_before is_BlockchainStop is_ShutdownTrackerStop t /\
  happens_before is_ShutdownTrackerStop is_ChainDbClose t /\
  happens_before is_BlockchainStop is_ChainDbClose t /\
  if closeBloomHandler s then
    is_Ok (result_of (Stop s)) = false /\ count is_ChainDbClose t = 0%nat
  else
    is_Ok (result_of (Stop s)) = true /\
    count is_BlockchainStop t = 1%nat /\
    count is_ShutdownTrackerStop t = 1%nat /\
    count is_ChainDbClose t = 1%nat.
Proof.
  destruct s as [cfg db eng nid gp closed].
  destruct closed; cbn zeta;
    (split; [|split; [|split]]);
    try (apply guarded_sound; reflexivity);
    cbn; repeat split.
Qed.

End StopFacts.

(* ===================================================================== *)
(** * Theorems: the cache sanitization of New *)
(* ===================================================================== *)

(** The steps of a case analysis of the calls that [New] makes: the monad
    operations are computed as far as the outcomes are known, then an
    outcome that the computation waits for is split into its cases. *)
Ltac run_monad :=
  cbn [effects.bind effects.ret effects.fail effects.panic effects.emit
       effects.call effects.call_err effects.pure effects.trace_of
       effects.result_of fst snd app negb].

Ltac head_case :=
  match goal with
  | |- context [match ?x with _ => _ end] =>
    lazymatch x with
    | context [match _ with _ => _ end] => fail
    | _ => destruct x eqn:?
    end
  end.

Ltac new_cases := repeat (run_monad; head_case); run_monad.

Section CacheFacts.
Import effects ethconfig eth cachespec.

Lemma wrap_in_int z : goint.in_int z -> goint.wrap z = z.
Proof.
  unfold goint.in_int, goint.wrap, goint.MinInt, goint.MaxInt. intros Hz.
  rewrite Z.mod_small; lia.
Qed.

(** The gas price sanitization touches no other field. *)
Lemma sanitizeGasPrice_fields env c :
  let c1 := sanitizeGasPrice env c in
  NoPruning c1 = NoPruning c /\
  TrieCleanCache c1 = TrieCleanCache c /\
  TrieDirtyCache c1 = TrieDirtyCache c /\
  SnapshotCache c1 = SnapshotCache c /\
  TrieTimeout c1 = TrieTimeout c /\
  StateHistory c1 = StateHistory c /\
  StateScheme c1 = StateScheme c /\
  SkipBcVersionCheck c1 = SkipBcVersionCheck c.
Proof.
  unfold sanitizeGasPrice.
  destruct (MinerGasPrice c) as [p|]; [destruct (p <=? 0)|];
    cbn; repeat split.
Qed.

(** The cache sanitization leaves the fields it does not assign alone. *)
Lemma sanitizeCaches_fields c :
  let c1 := sanitizeCaches c in
  NoPruning c1 = NoPruning c /\
  TrieTimeout c1 = TrieTimeout c /\
  StateHistory c1 = StateHistory c /\
  StateScheme c1 = StateScheme c /\
  SkipBcVersionCheck c1 = SkipBcVersionCheck c.
Proof.
  unfold sanitizeCaches.
  destruct (NoPruning c && (TrieDirtyCache c >? 0));
    [destruct (SnapshotCache c >? 0)|]; cbn; repeat split.
Qed.

(** The caches after both sanitizations are those after the second alone. *)
Lemma sanitizeCaches_after_gas_price env c :
  let c1 := sanitizeCaches (sanitizeGasPrice env c) in
  let c2 := sanitizeCaches c in
  TrieCleanCache c1 = TrieCleanCache c2 /\
  TrieDirtyCache c1 = TrieDirtyCache c2 /\
  SnapshotCache c1 = SnapshotCache c2.
Proof.
  destruct (sanitizeGasPrice_fields env c) as (Hn & Hc & Hd & Hs & _).
  cbn zeta in *. unfold sanitizeCaches. rewrite Hn, Hd, Hs, Hc.
  destruct (NoPruning c && (TrieDirtyCache c >? 0));
    [destruct (SnapshotCache c >? 0)|];
    cbn -[goint.add goint.div goint.mul]; rewrite ?Hc, ?Hd, ?Hs;
    repeat split.
Qed.

(** The node that [New] returns holds the sanitized configuration. *)
Lemma New_Ok_config env c e :
  result_of (New env c) = Returned (Ok e) ->
  config e = sanitizeCaches (sanitizeGasPrice env c).
Proof.
  unfold New, ChainID_Uint64, checkDatabaseVersion.
  set (c' := sanitizeCaches (sanitizeGasPrice env c)).
  repeat (run_monad; try discriminate; head_case).
  all: run_monad; try discriminate.
  all: intros [= <-]; reflexivity.
Qed.

Lemma redistributed_exactly_ext c c1 c2 :
  TrieCleanCache c1 = TrieCleanCache c2 ->
  TrieDirtyCache c1 = TrieDirtyCache c2 ->
  SnapshotCache c1 = SnapshotCache c2 ->
  redistributed_exactly c c2 -> redistributed_exactly c c1.
Proof.
  unfold redistributed_exactly. intros -> -> ->. tauto.
Qed.

(** C9, as the code has it: for every configuration with [NoPruning] set and
    a dirty cache [d > 0], provided that no step of the redistribution
    overflows [int], the sanitization in [New] sets [TrieDirtyCache] to 0
    and redistributes [d] exactly: with a snapshot cache the clean cache
    grows by [d*3/5] and the snapshot cache by [d*2/5], otherwise the clean
    cache grows by [d]; the combined growth is at most [d].  The node that
    [New] returns holds this configuration. *)
Theorem sanitizeCaches_redistributes (c : Config) :
  NoPruning c = true ->
  0 < TrieDirtyCache c ->
  caches_in_int c ->
  no_overflow c ->
  redistributed_exactly c (sanitizeCaches c) /\
  forall env e, result_of (New env c) = Returned (Ok e) ->
    redistributed_exactly c (config e).
Proof.
  intros Hnp Hd (Hclean & Hdirty & Hsnap) Hno.
  assert (Hmain : redistributed_exactly c (sanitizeCaches c)).
  { unfold redistributed_exactly, no_overflow, sanitizeCaches in *.
    rewrite Hnp. cbn [andb].
    replace (TrieDirtyCache c >? 0) with true
      by (symmetry; apply Z.gtb_lt; lia).
    unfold goint.in_int, goint.MinInt, goint.MaxInt in *.
    destruct (SnapshotCache c >? 0) eqn:Hs; cbn -[Z.mul Z.div Z.add].
    - apply Z.gtb_lt in Hs. destruct Hno as (H3 & Hc & Hsn).
      unfold goint.add, goint.div, goint.mul.
      assert (H35 : 0 <= TrieDirtyCache c * 3 / 5 <= TrieDirtyCache c * 3)
        by (split; [apply Z.div_pos | apply Z.div_le_upper_bound]; lia).
      assert (H25 : 0 <= TrieDirtyCache c * 2 / 5 <= TrieDirtyCache c * 2)
        by (split; [apply Z.div_pos | apply Z.div_le_upper_bound]; lia).
      pose proof (Z.mul_div_le (TrieDirtyCache c * 3) 5 eq_refl) as Hm3.
      pose proof (Z.mul_div_le (TrieDirtyCache c * 2) 5 eq_refl) as Hm2.
      rewrite !(wrap_in_int (TrieDirtyCache c * _))
        by (unfold goint.in_int, goint.MinInt, goint.MaxInt; lia).
      rewrite !Z.quot_div_nonneg by lia.
      rewrite !(wrap_in_int (_ / 5))
        by (unfold goint.in_int, goint.MinInt, goint.MaxInt; lia).
      rewrite !wrap_in_int
        by (unfold goint.in_int, goint.MinInt, goint.MaxInt; lia).
      repeat split; lia.
    - unfold goint.add.
      rewrite wrap_in_int
        by (unfold goint.in_int, goint.MinInt, goint.MaxInt; lia).
      repeat split; lia. }
  split; [exact Hmain|].
  intros env e He. rewrite (New_Ok_config env c e He).
  destruct (sanitizeCaches_after_gas_price env c) as (H1 & H2 & H3).
  by apply (redistributed_exactly_ext c _ (sanitizeCaches c)).
Qed.

Lemma sanitizeCaches_redistributes_witness :
  let c := examples.archive examples.Defaults in
  redistributed_exactly c (sanitizeCaches c) /\
  forall env e, result_of (New env c) = Returned (Ok e) ->
    redistributed_exactly c (config e).
Proof.
  apply (sanitizeCaches_redistributes (examples.archive examples.Defaults)).
  - reflexivity.
  - reflexivity.
  - vm_compute. repeat split; discriminate.
  - vm_compute. repeat split; discriminate.
Defined.

(** C9 as stated, for every configuration, fails where the arithmetic of
    [int] wraps around: with [NoPruning], a snapshot cache, a clean cache of
    0 and a dirty cache of [2^62] the product [d*3] overflows, and the
    clean cache becomes negative instead of growing by [d*3/5]. *)
Lemma sanitizeCaches_overflow_counterexample :
  let c := examples.huge_dirty_cache in
  NoPruning c = true /\
  0 < TrieDirtyCache c /\
  caches_in_int c /\
  TrieCleanCache (sanitizeCaches c) = -922337203685477580 /\
  ~ redistributed_exactly c (sanitizeCaches c).
Proof.
  cbn zeta. split; [reflexivity|]. split; [reflexivity|]. split.
  - vm_compute. repeat split; discriminate.
  - split; [reflexivity|].
    unfold redistributed_exactly. intros (_ & H & _).
    vm_compute in H. destruct H as [H _]. discriminate.
Qed.

End CacheFacts.

(* ===================================================================== *)
(** * Theorems: the start-up of the node *)
(* ===================================================================== *)

Section NewFacts.
Import effects ethconfig eth.

Lemma HashScheme_neq_PathScheme : rawdb.HashScheme <> rawdb.PathScheme.
Proof. discriminate. Qed.

(** The fields that both sanitizations leave alone. *)
Lemma sanitized_fields env c :
  let c' := sanitizeCaches (sanitizeGasPrice env c) in
  TrieCleanCache c' = TrieCleanCache (sanitizeCaches c) /\
  TrieDirtyCache c' = TrieDirtyCache (sanitizeCaches c) /\
  TrieTimeout c' = TrieTimeout c /\
  StateHistory c' = StateHistory c /\
  StateScheme c' = StateScheme c /\
  SkipBcVersionCheck c' = SkipBcVersionCheck c.
Proof.
  destruct (sanitizeGasPrice_fields env c)
    as (_ & _ & _ & _ & Ht & Hh & Hs & Hk).
  destruct (sanitizeCaches_fields (sanitizeGasPrice env c))
    as (_ & Ht' & Hh' & Hs' & Hk').
  destruct (sanitizeCaches_after_gas_price env c) as (Hc & Hd & _).
  cbn zeta in *. repeat split; congruence.
Qed.

(** C7: [New] calls [pruner.RecoverPruning] at most once, and it calls it
    exactly when it gets as far as resolving the state scheme (the sync mode
    is valid and the database opens) and the resolved scheme is the hash
    scheme; when the resolved scheme is the path scheme it never calls it. *)
Theorem RecoverPruning_iff_hash_scheme (env : Env) (c : Config) :
  let t := trace_of (New env c) in
  (count is_RecoverPruning t <= 1)%nat /\
  (count is_RecoverPruning t = 1%nat <->
     SyncMode_IsValid env (SyncMode c) = true /\
     exists db, env_OpenDatabaseWithFreezer env = Ok db /\
                env_ParseStateScheme env (StateScheme c) db
                = Ok rawdb.HashScheme) /\
  (forall db, env_OpenDatabaseWithFreezer env = Ok db ->
              env_ParseStateScheme env (StateScheme c) db
              = Ok rawdb.PathScheme ->
              count is_RecoverPruning t = 0%nat).
Proof.
  cbn zeta.
  destruct (sanitized_fields env c) as (_ & _ & _ & _ & HS & _).
  pose proof HashScheme_neq_PathScheme as Hhp.
  cbn zeta in HS. unfold New, ChainID_Uint64, checkDatabaseVersion.
  set (c' := sanitizeCaches (sanitizeGasPrice env c)) in *.
  destruct (SyncMode_IsValid env (SyncMode c)) eqn:Hvalid.
  all: new_cases.
  all: cbn [count List.filter is_RecoverPruning length]; rewrite ?HS in *.
  all: (split; [lia|]; split; [split|]).
  all: try (intros Hc;
            first [ discriminate Hc
                  | split; [reflexivity|]; eexists;
                    split; [reflexivity | congruence] ]).
  all: try (intros (Hv & db & Ho & Hp); first [reflexivity | congruence]).
  all: intros db Ho Hp; first [reflexivity | congruence].
Qed.

Lemma RecoverPruning_iff_hash_scheme_witness :
  count is_RecoverPruning
    (trace_of (New (examples.env_ok (examples.database rawdb.Hash (Some 9)))
                   examples.Defaults)) = 1%nat /\
  count is_RecoverPruning
    (trace_of (New (examples.env_ok (examples.database rawdb.Path (Some 9)))
                   examples.Defaults)) = 0%nat.
Proof.
  split.
  - apply (proj1 (proj2 (RecoverPruning_iff_hash_scheme
             (examples.env_ok (examples.database rawdb.Hash (Some 9)))
             examples.Defaults))).
    split; [reflexivity|]. eexists. split; reflexivity.
  - apply (proj2 (proj2 (RecoverPruning_iff_hash_scheme
             (examples.env_ok (examples.database rawdb.Path (Some 9)))
             examples.Defaults))
             (examples.database rawdb.Path (Some 9))); reflexivity.
Defined.

(** C6: the cache configuration that [New] hands to [core.NewBlockChain]
    carries the trie settings of the sanitized configuration unchanged:
    the clean and dirty limits are the clean and dirty caches after the
    cache sanitization, the time limit and the state history are those of
    the configuration, and the state scheme is the one that
    [rawdb.ParseStateScheme] resolved. *)
Theorem New_forwards_cache_config (env : Env) (c : Config)
    (db : rawdb.ChainDb) (cc : core.CacheConfig) :
  In (NewBlockChain db cc) (trace_of (New env c)) ->
  let c' := sanitizeCaches (sanitizeGasPrice env c) in
  (core.TrieCleanLimit cc = TrieCleanCache c' /\
   core.TrieDirtyLimit cc = TrieDirtyCache c' /\
   core.TrieTimeLimit cc = TrieTimeout c' /\
   core.StateHistory cc = StateHistory c' /\
   exists db0, env_OpenDatabaseWithFreezer env = Ok db0 /\
     env_ParseStateScheme env (StateScheme c') db0
     = Ok (core.StateScheme cc)) /\
  (TrieCleanCache c' = TrieCleanCache (sanitizeCaches c) /\
   TrieDirtyCache c' = TrieDirtyCache (sanitizeCaches c) /\
   TrieTimeout c' = TrieTimeout c /\
   StateHistory c' = StateHistory c /\
   StateScheme c' = StateScheme c).
Proof.
  cbn zeta. intros Hin. split.
  2: { destruct (sanitized_fields env c) as (? & ? & ? & ? & ? & _).
       repeat split; assumption. }
  revert Hin. unfold New, ChainID_Uint64, checkDatabaseVersion.
  set (c' := sanitizeCaches (sanitizeGasPrice env c)) in *.
  new_cases.
  all: cbn [In]; intros Hin.
  all: repeat (destruct Hin as [Hin|Hin]; [try discriminate Hin|]);
    try contradiction.
  all: injection Hin as <- <-; cbn.
  all: repeat split; eexists; split; [reflexivity | assumption].
Qed.

Lemma New_forwards_cache_config_witness :
  let env := examples.env_ok (examples.database rawdb.Path (Some 9)) in
  let c := examples.archive examples.Defaults in
  let db := examples.database rawdb.Path (Some 9) in
  let cc := makeCacheConfig (sanitizeCaches c) rawdb.PathScheme in
  In (NewBlockChain db cc) (trace_of (New env c)) /\
  core.TrieCleanLimit cc = 307 /\
  core.TrieDirtyLimit cc = 0 /\
  core.TrieTimeLimit cc = TrieTimeout c /\
  core.StateHistory cc = StateHistory c.
Proof.
  cbn zeta.
  assert (Hin : In (NewBlockChain (examples.database rawdb.Path (Some 9))
                      (makeCacheConfig
                         (sanitizeCaches (examples.archive examples.Defaults))
                         rawdb.PathScheme))
                   (trace_of (New (examples.env_ok
                                     (examples.database rawdb.Path (Some 9)))
                                  (examples.archive examples.Defaults)))).
  { vm_compute. do 6 right. left. reflexivity. }
  split; [exact Hin|].
  pose proof (New_forwards_cache_config _ _ _ _ Hin) as H.
  cbn zeta in H. destruct H as ((H1 & H2 & H3 & H4 & _) & (E1 & E2 & E3 & E4 & _)).
  rewrite H1, H2, H3, H4, E1, E2, E3, E4.
  repeat split; reflexivity.
Defined.

End NewFacts.

Section SchemeFacts.
Import effects ethconfig eth newspec.

(** The resolution yields one of the two schemes, or an error when a
    scheme was requested. *)
Lemma ParseStateScheme_cases fallback p db :
  match statescheme.ParseStateScheme fallback p db with
  | Ok s => s = rawdb.HashScheme \/ s = rawdb.PathScheme
  | Err e => p <> EmptyString
  end.
Proof.
  unfold statescheme.ParseStateScheme, rawdb.ReadStateScheme.
  destruct (rawdb.db_scheme db) as [[]|], fallback;
    repeat case_decide; cbn; try tauto; try congruence.
  all: destruct (decide (p = rawdb.HashScheme)); [tauto|].
  all: destruct (decide (p = rawdb.PathScheme)); tauto.
Qed.

(** A conflict between the requested and the persisted scheme is an error. *)
Lemma ParseStateScheme_conflict fallback c db :
  scheme_conflict c db ->
  exists e, statescheme.ParseStateScheme fallback (StateScheme c) db = Err e.
Proof.
  intros (k & Hk & Hne & Hnk).
  unfold statescheme.ParseStateScheme, rawdb.ReadStateScheme. rewrite Hk.
  repeat case_decide; try (eexists; reflexivity); try congruence.
  all: destruct k; cbn in *;
    match goal with
    | H : _ \/ _ |- _ => destruct H as [H|H]; [discriminate H | congruence]
    end.
Qed.

(** C2: with the state scheme resolved as the specification says
    ([statescheme.ParseStateScheme]), [New] resolves the scheme at most once
    and before it builds the blockchain; the scheme it hands to
    [core.NewBlockChain] is the hash scheme or the path scheme; and when the
    scheme requested conflicts with the scheme persisted in the store, [New]
    returns an error (the configuration error of the resolution, once the
    sync mode is valid) and never builds the blockchain. *)
Theorem New_resolves_scheme_once (env : Env) (fallback : rawdb.scheme)
    (c : Config) :
  (forall p db,
      env_ParseStateScheme env p db
      = statescheme.ParseStateScheme fallback p db) ->
  let t := trace_of (New env c) in
  (count is_ParseStateScheme t <= 1)%nat /\
  happens_before is_ParseStateScheme is_NewBlockChain t /\
  (forall db cc, In (NewBlockChain db cc) t ->
     core.StateScheme cc = rawdb.HashScheme \/
     core.StateScheme cc = rawdb.PathScheme) /\
  (forall db, env_OpenDatabaseWithFreezer env = Ok db ->
     scheme_conflict c db ->
     is_Err (result_of (New env c)) = true /\
     count is_NewBlockChain t = 0%nat /\
     (SyncMode_IsValid env (SyncMode c) = true ->
      exists e,
        statescheme.ParseStateScheme fallback (StateScheme c) db = Err e /\
        result_of (New env c) = Returned (Err e))).
Proof.
  intros Hparse. cbn zeta.
  destruct (sanitized_fields env c) as (_ & _ & _ & _ & HS & _).
  cbn zeta in HS.
  unfold New, ChainID_Uint64, checkDatabaseVersion.
  set (c' := sanitizeCaches (sanitizeGasPrice env c)) in *.
  split; [|split; [|split]].
  - new_cases; cbn; lia.
  - new_cases; apply guarded_sound; reflexivity.
  - intros db cc.
    new_cases; cbn [In]; intros Hin;
      repeat (destruct Hin as [Hin|Hin]; [try discriminate Hin|]);
      try contradiction; injection Hin as <- <-; cbn.
    all: match goal with
         | H : env_ParseStateScheme _ ?p ?d = Ok ?s |- _ =>
           pose proof (ParseStateScheme_cases fallback p d) as Hc;
             rewrite <- Hparse, H in Hc; exact Hc
         end.
  - intros db Hopen Hconf.
    destruct (ParseStateScheme_conflict fallback c db Hconf) as [e He].
    rewrite Hopen.
    destruct (SyncMode_IsValid env (SyncMode c)); run_monad.
    + rewrite Hparse, HS, He. run_monad. repeat split. intros _. eauto.
    + repeat split. discriminate.
Qed.

Lemma New_resolves_scheme_once_witness :
  let env := examples.env_ok (examples.database rawdb.Path (Some 9)) in
  let c := examples.request_scheme rawdb.HashScheme examples.Defaults in
  (forall p db,
      env_ParseStateScheme env p db
      = statescheme.ParseStateScheme rawdb.Hash p db) /\
  scheme_conflict c (examples.database rawdb.Path (Some 9)) /\
  is_Err (result_of (New env c)) = true /\
  count is_NewBlockChain (trace_of (New env c)) = 0%nat.
Proof.
  cbn zeta.
  assert (Hparse : forall p db,
             env_ParseStateScheme
               (examples.env_ok (examples.database rawdb.Path (Some 9))) p db
             = statescheme.ParseStateScheme rawdb.Hash p db)
    by reflexivity.
  assert (Hconf : scheme_conflict
                    (examples.request_scheme rawdb.HashScheme
                       examples.Defaults)
                    (examples.database rawdb.Path (Some 9))).
  { exists rawdb.Path. split; [reflexivity|]. split; discriminate. }
  split; [exact Hparse|]. split; [exact Hconf|].
  destruct (New_resolves_scheme_once _ rawdb.Hash
              (examples.request_scheme rawdb.HashScheme examples.Defaults)
              Hparse) as (_ & _ & _ & H).
  destruct (H (examples.database rawdb.Path (Some 9)) eq_refl Hconf)
    as (H1 & H2 & _).
  split; assumption.
Defined.

End SchemeFacts.

Section VersionFacts.
Import effects ethconfig eth newspec.

(** C5: with the version check enabled ([SkipBcVersionCheck] is false) and
    the database opened: when the persisted version is greater than
    [BlockChainVersion], [New] returns no node, writes no version and never
    builds the blockchain; it returns an error unless it stops in the nil
    dereference of line 151 before the check, and the error is the version
    error once [New] gets as far as the check.  When the persisted version
    is absent or lower and [New] gets as far as the check, it writes
    [BlockChainVersion] once, every database it builds the blockchain on
    reads back as version [BlockChainVersion] with the persisted scheme
    untouched, and it goes on: unless the tracer fails, it builds the
    blockchain, after the write, on the upgraded database. *)
Theorem New_checks_database_version (env : Env) (c : Config)
    (db : rawdb.ChainDb) :
  SkipBcVersionCheck c = false ->
  env_OpenDatabaseWithFreezer env = Ok db ->
  let t := trace_of (New env c) in
  let supported := BlockChainVersion env in
  (forall v, rawdb.db_version db = Some v -> v > supported ->
     is_Ok (result_of (New env c)) = false /\
     count is_NewBlockChain t = 0%nat /\
     count is_WriteDatabaseVersion t = 0%nat /\
     (~ nil_chain_id_at_line_151 env c ->
      is_Err (result_of (New env c)) = true) /\
     (reaches_version_check env c db ->
      result_of (New env c) = Returned (Err (ErrDatabaseVersion v supported)))) /\
  ((rawdb.db_version db = None \/
    exists v, rawdb.db_version db = Some v /\ v < supported) ->
   reaches_version_check env c db ->
   count is_WriteDatabaseVersion t = 1%nat /\
   In (WriteDatabaseVersion supported) t /\
   (forall db' cc, In (NewBlockChain db' cc) t ->
      rawdb.ReadDatabaseVersion db' = Some supported /\
      rawdb.db_scheme db' = rawdb.db_scheme db) /\
   (tracer_succeeds env c ->
    (exists db' cc,
        In (NewBlockChain db' cc) t /\
        db' = rawdb.WriteDatabaseVersion db supported /\
        rawdb.ReadDatabaseVersion db' = Some supported) /\
    happens_before is_WriteDatabaseVersion is_NewBlockChain t)).
Proof.
  intros Hskip Hopen. cbn zeta.
  destruct (sanitized_fields env c) as (_ & _ & _ & _ & HS & Hk).
  cbn zeta in HS, Hk. rewrite Hskip in Hk.
  unfold reaches_version_check, tracer_succeeds, nil_chain_id_at_line_151.
  unfold New, ChainID_Uint64, checkDatabaseVersion, CreateConsensusEngine.
  assert (HV : VMTrace (sanitizeCaches (sanitizeGasPrice env c)) = VMTrace c).
  { unfold sanitizeCaches, sanitizeGasPrice. repeat case_match; reflexivity. }
  assert (HN : NetworkId (sanitizeCaches (sanitizeGasPrice env c))
               = NetworkId c).
  { unfold sanitizeCaches, sanitizeGasPrice. repeat case_match; reflexivity. }
  set (c' := sanitizeCaches (sanitizeGasPrice env c)) in *.
  rewrite Hopen, Hk, HS, HN. destruct db as [sch ver].
  destruct (SyncMode_IsValid env (SyncMode c)) eqn:Hvalid; run_monad.
  2: { split.
       - intros v _ _. repeat split. intros (Hv & _). discriminate Hv.
       - intros _ (Hv & _). discriminate Hv. }
  cbn [rawdb.ReadDatabaseVersion rawdb.db_version rawdb.db_scheme].
  split.
  - intros v -> Hgt.
    assert (Hgtb : (v >? BlockChainVersion env) = true)
      by (apply Z.gtb_lt; lia).
    rewrite Hgtb.
    new_cases.
    all: repeat match goal with
         | H : (_ =? 0) = true |- _ => apply Z.eqb_eq in H
         | H : (_ =? 0) = false |- _ => apply Z.eqb_neq in H
         end.
    all: (split; [reflexivity|]; split; [reflexivity|];
          split; [reflexivity|]; split).
    all: try (intros _; reflexivity).
    all: try (intros (_ & s' & cfg & Hp & Hl & Httd & Hid); exfalso;
              simplify_eq; first [by apply Httd | by apply Hid]).
    all: intros Hnil; exfalso; apply Hnil.
    all: split; [reflexivity|]; split; [assumption|].
    all: eexists _, _, _; split; [reflexivity|]; split; [eassumption|].
    all: split; [eassumption|]; split; [congruence | assumption].
  - intros Hold (_ & s & cfg & Hp & Hl & Httd & Hid).
    assert (Hgtb : match ver with
                   | Some v => v >? BlockChainVersion env
                   | None => false
                   end = false).
    { destruct Hold as [->|(v & -> & Hlt)]; [reflexivity|].
      rewrite Z.gtb_ltb. apply Z.ltb_ge. lia. }
    assert (Hltb : match ver with
                   | Some v => v <? BlockChainVersion env
                   | None => true
                   end = true).
    { destruct Hold as [->|(v & -> & Hlt)]; [reflexivity|].
      apply Z.ltb_lt. lia. }
    rewrite Hgtb, Hltb, Hp. run_monad.
    destruct (decide (s = rawdb.HashScheme)); run_monad.
    all: rewrite Hl; run_monad.
    all: destruct (params.TerminalTotalDifficulty cfg); [|congruence].
    all: destruct (params.Clique cfg); run_monad.
    all: destruct (Z.eqb_spec (NetworkId c) 0) as [H0|H0];
      [destruct (params.ChainID cfg); [|by specialize (Hid H0)]|]; run_monad.
    all: new_cases.
    all: (split; [reflexivity|]; split; [cbn; tauto|]; split).
    all: try (intros db' cc; cbn [In]; intros Hin;
              repeat (destruct Hin as [Hin|Hin]; [try discriminate Hin|]);
              try contradiction; injection Hin as <- <-;
              split; reflexivity).
    all: rewrite ?HV in *.
    all: intros [Htr|Htr]; try congruence;
      try (match goal with
           | H : env_TracersNew _ _ _ = Some _ |- _ =>
             rewrite Htr in H; discriminate H
           end).
    all: (split; [ eexists _, _; split;
                   [ cbn [In]; repeat (first [left; reflexivity | right])
                   | split; reflexivity ]
                 | apply guarded_sound; reflexivity ]).
Qed.

(** With [SkipBcVersionCheck] set, [New] never writes the database version. *)
Lemma New_skips_version_check (env : Env) (c : Config) :
  SkipBcVersionCheck c = true ->
  count is_WriteDatabaseVersion (trace_of (New env c)) = 0%nat.
Proof.
  intros Hskip.
  destruct (sanitized_fields env c) as (_ & _ & _ & _ & _ & Hk).
  cbn zeta in Hk. rewrite Hskip in Hk.
  unfold New, ChainID_Uint64, checkDatabaseVersion.
  set (c' := sanitizeCaches (sanitizeGasPrice env c)) in *.
  rewrite Hk. new_cases; reflexivity.
Qed.

Lemma New_checks_database_version_witness :
  let db := examples.database rawdb.Path (Some 8) in
  let env := examples.env_ok db in
  let c := examples.Defaults in
  SkipBcVersionCheck c = false /\
  env_OpenDatabaseWithFreezer env = Ok db /\
  reaches_version_check env c db /\
  tracer_succeeds env c /\
  count is_WriteDatabaseVersion (trace_of (New env c)) = 1%nat /\
  In (WriteDatabaseVersion 9) (trace_of (New env c)) /\
  exists cc,
    In (NewBlockChain (examples.database rawdb.Path (Some 9)) cc)
       (trace_of (New env c)).
Proof.
  cbn zeta.
  assert (Hreach : reaches_version_check
                     (examples.env_ok (examples.database rawdb.Path (Some 8)))
                     examples.Defaults
                     (examples.database rawdb.Path (Some 8))).
  { split; [reflexivity|]. eexists _, _.
    split; [reflexivity|]. split; [reflexivity|].
    split; [discriminate|]. intros _. discriminate. }
  assert (Htr : tracer_succeeds
                  (examples.env_ok (examples.database rawdb.Path (Some 8)))
                  examples.Defaults)
    by (left; reflexivity).
  split; [reflexivity|]. split; [reflexivity|]. split; [exact Hreach|].
  split; [exact Htr|].
  destruct (New_checks_database_version
              (examples.env_ok (examples.database rawdb.Path (Some 8)))
              examples.Defaults (examples.database rawdb.Path (Some 8))
              eq_refl eq_refl) as (_ & H).
  assert (Hold : rawdb.db_version (examples.database rawdb.Path (Some 8))
                 = None \/
                 exists v, rawdb.db_version
                             (examples.database rawdb.Path (Some 8)) = Some v
                           /\ v < 9).
  { right. exists 8. split; [reflexivity|]. reflexivity. }
  destruct (H Hold Hreach) as (H1 & H2 & _ & H3).
  split; [exact H1|]. split; [exact H2|].
  destruct (H3 Htr) as ((db' & cc & Hin & -> & _) & _).
  exists cc. exact Hin.
Defined.

End VersionFacts.

(* ===================================================================== *)
(** * Theorems: the layer tree of the path scheme *)
(* ===================================================================== *)

Section LayerTreeFacts.
Import common pathdb.
Local Open Scope nat_scope.

Implicit Types (d : DiskLayer) (cs : list commit) (k : Hash * string).

Lemma layers_of_app g cs1 cs2 :
  layers_of g (cs1 ++ cs2)
  = layers_of g cs1 ++ layers_of (g + length cs1) cs2.
Proof.
  revert g. induction cs1 as [|c cs1 IH]; intros g; cbn.
  - by rewrite Nat.add_0_r.
  - rewrite IH. do 3 f_equal. lia.
Qed.

Lemma layers_of_roots g cs :
  map root (layers_of g cs) = map commit_root cs.
Proof.
  revert g. induction cs as [|c cs IH]; intros g; cbn; [done|].
  by rewrite IH.
Qed.

(** A linear chain of commits succeeds and stacks one layer per commit. *)
Lemma commit_all_linear cs :
  forall t, linear_chain (tail_root t) cs ->
    commit_all t cs
    = Ok {| disk := disk t;
            diffs := rev (layers_of (tail_generation t) cs) ++ diffs t |}.
Proof.
  induction cs as [|c cs IH]; intros t Hlin.
  - by destruct t.
  - destruct Hlin as [Hparent Hlin]. cbn [commit_all]. unfold Commit.
    rewrite decide_True by done.
    rewrite IH by exact Hlin. cbn.
    by rewrite <- app_assoc.
Qed.

Lemma find_layer_skip r (pre rest : list DiffLayer) :
  Forall (fun l => root l <> r) pre ->
  find_layer r (pre ++ rest) = find_layer r rest.
Proof.
  induction 1 as [|l pre Hl _ IH]; [done|]. cbn.
  by rewrite decide_False.
Qed.

Lemma layers_roots_differ r g cs :
  r ∉ map commit_root cs ->
  Forall (fun l => root l <> r) (rev (layers_of g cs)).
Proof.
  intros Hnot. apply Forall_forall. intros l Hl Heq.
  apply Hnot, list_elem_of_In.
  rewrite <- (layers_of_roots g cs), <- Heq.
  apply in_map, in_rev. by apply list_elem_of_In.
Qed.

Lemma find_layer_absent r g cs :
  r ∉ map commit_root cs ->
  find_layer r (rev (layers_of g cs)) = None.
Proof.
  intros Hnot.
  rewrite <- (app_nil_r (rev _)).
  by rewrite find_layer_skip by by apply layers_roots_differ.
Qed.

(** The layer of a commit whose root no later commit repeats is found, with
    exactly the layers of the commits up to it below. *)
Lemma find_layer_commit g cs1 c cs2 :
  commit_root c ∉ map commit_root cs2 ->
  find_layer (commit_root c) (rev (layers_of g (cs1 ++ c :: cs2)))
  = Some (rev (layers_of g (cs1 ++ [c]))).
Proof.
  intros Hnot.
  rewrite !layers_of_app. cbn [layers_of]. rewrite !rev_app_distr.
  cbn [rev]. rewrite <- !app_assoc.
  rewrite find_layer_skip by by apply layers_roots_differ.
  cbn. by rewrite decide_True.
Qed.

(** The lookup through the layers of [cs ++ [c]]: the newest layer first. *)
Lemma lookup_layers_snoc k g cs c d :
  lookup_layers k (rev (layers_of g (cs ++ [c]))) d
  = match commit_writes c !! k with
    | Some v => Some v
    | None => lookup_layers k (rev (layers_of g cs)) d
    end.
Proof.
  rewrite layers_of_app. cbn [layers_of]. rewrite rev_app_distr. reflexivity.
Qed.

Lemma written_at_snoc_old d cs c j k :
  j <= length cs -> written_at d (cs ++ [c]) j k = written_at d cs j k.
Proof.
  intros Hj. destruct j as [|j]; [done|]. cbn.
  by rewrite lookup_app_l by lia.
Qed.

Lemma written_at_snoc_new d cs c k :
  written_at d (cs ++ [c]) (S (length cs)) k = commit_writes c !! k.
Proof.
  cbn. by rewrite list_lookup_middle.
Qed.

Lemma written_at_take d cs i j k :
  j <= i -> written_at d (take i cs) j k = written_at d cs j k.
Proof.
  intros Hj. destruct j as [|j]; [done|]. cbn.
  by rewrite lookup_take_lt by lia.
Qed.

(** The lookup finds nothing exactly when no generation wrote the key. *)
Lemma lookup_layers_None k g d cs :
  lookup_layers k (rev (layers_of g cs)) d = None <->
  forall j, j <= length cs -> written_at d cs j k = None.
Proof.
  induction cs as [|c cs IH] using rev_ind.
  - cbn. split.
    + intros H j Hj. by replace j with 0 by lia.
    + intros H. apply (H 0). lia.
  - rewrite lookup_layers_snoc, length_app. cbn [length].
    destruct (commit_writes c !! k) as [v|] eqn:Hc.
    + split; [done|]. intros H.
      specialize (H (S (length cs)) ltac:(lia)).
      rewrite written_at_snoc_new, Hc in H. done.
    + rewrite IH. split.
      * intros H j Hj. destruct (decide (j = S (length cs))) as [->|Hne].
        -- by rewrite written_at_snoc_new.
        -- rewrite written_at_snoc_old by lia. apply H. lia.
      * intros H j Hj. rewrite <- (written_at_snoc_old d cs c) by lia.
        apply H. lia.
Qed.

(** The lookup finds the latest write at or before the newest generation. *)
Lemma lookup_layers_Some k g d cs v :
  lookup_layers k (rev (layers_of g cs)) d = Some v <->
  latest_write d cs (length cs) k v.
Proof.
  revert v. induction cs as [|c cs IH] using rev_ind; intros v.
  - cbn. unfold latest_write. split.
    + intros H. exists 0. split; [lia|]. split; [done|]. intros j' Hj'. lia.
    + intros (j & Hj & Hw & _). by replace j with 0 in Hw by lia.
  - rewrite lookup_layers_snoc, length_app. cbn [length].
    replace (length cs + 1) with (S (length cs)) by lia.
    destruct (commit_writes c !! k) as [v'|] eqn:Hc.
    + split.
      * intros [= <-]. exists (S (length cs)). split; [lia|].
        rewrite written_at_snoc_new. split; [done|]. intros j' Hj'. lia.
      * intros (j & Hj & Hw & Hlater).
        destruct (decide (j = S (length cs))) as [->|Hne].
        -- rewrite written_at_snoc_new in Hw. congruence.
        -- specialize (Hlater (S (length cs)) ltac:(lia)).
           rewrite written_at_snoc_new in Hlater. congruence.
    + rewrite IH. split.
      * intros (j & Hj & Hw & Hlater). exists j. split; [lia|]. split.
        -- by rewrite written_at_snoc_old.
        -- intros j' Hj'.
           destruct (decide (j' = S (length cs))) as [->|Hne].
           ++ by rewrite written_at_snoc_new.
           ++ rewrite written_at_snoc_old by lia. apply Hlater. lia.
      * intros (j & Hj & Hw & Hlater).
        destruct (decide (j = S (length cs))) as [->|Hne].
        -- rewrite written_at_snoc_new in Hw. congruence.
        -- exists j. split; [lia|]. split.
           ++ by rewrite <- (written_at_snoc_old d cs c) by lia.
           ++ intros j' Hj'. rewrite <- (written_at_snoc_old d cs c) by lia.
              apply Hlater. lia.
Qed.

Lemma latest_write_take d cs i k v :
  i <= length cs ->
  latest_write d (take i cs) i k v <-> latest_write d cs i k v.
Proof.
  intros Hi. unfold latest_write. split.
  - intros (j & Hj & Hw & Hl). exists j. split; [done|]. split.
    + by rewrite <- (written_at_take d cs i) by lia.
    + intros j' Hj'. rewrite <- (written_at_take d cs i) by lia. by apply Hl.
  - intros (j & Hj & Hw & Hl). exists j. split; [done|]. split.
    + by rewrite written_at_take by lia.
    + intros j' Hj'. rewrite written_at_take by lia. by apply Hl.
Qed.

Lemma linear_chain_app r0 cs1 cs2 :
  linear_chain r0 (cs1 ++ cs2) -> linear_chain r0 cs1.
Proof.
  revert r0. induction cs1 as [|c cs1 IH]; intros r0; cbn; [done|].
  intros [Hp Hl]. split; [done|]. by apply IH.
Qed.

(** The reader of the root of generation [i], in the tree that the commits
    [cs] build on the disk layer [d]: it is bound to the layers of the first
    [i] commits. *)
Lemma OpenReader_generation d cs i :
  NoDup (disk_root d :: map commit_root cs) ->
  i <= length cs ->
  exists r,
    root_at (disk_root d) cs i = Some r /\
    OpenReader {| disk := d; diffs := rev (layers_of (disk_generation d) cs) |} r
    = Ok {| reader_layers := rev (layers_of (disk_generation d) (take i cs));
            reader_disk := d |}.
Proof.
  intros Hnd Hi. apply NoDup_cons in Hnd as [Hr0 Hnd].
  destruct i as [|i].
  - exists (disk_root d). split; [done|]. unfold OpenReader. cbn.
    rewrite find_layer_absent by done. by rewrite decide_True.
  - destruct (lookup_lt_is_Some_2 cs i ltac:(lia)) as [c Hc].
    exists (commit_root c). cbn. rewrite Hc. split; [done|].
    pose proof (take_drop_middle cs i c Hc) as Hsplit.
    unfold OpenReader. cbn.
    rewrite <- Hsplit at 1.
    rewrite find_layer_commit.
    + by rewrite (take_S_r cs i c Hc).
    + rewrite <- Hsplit, map_app in Hnd. cbn in Hnd.
      apply NoDup_app in Hnd as (_ & _ & Hnd).
      by apply NoDup_cons in Hnd as [Hnot _].
Qed.

(** C3, amended: for every sequence of commits that forms a single linear
    chain on a disk layer and whose roots, the one of the disk layer
    included, are pairwise distinct, every generation [i] of it and every
    key [k]: all commits succeed, the reader of the root of generation [i]
    opens, and its [Node k] returns [v] exactly when [v] is the value
    written to [k] at or before generation [i] (the latest such write); it
    reports NotFound exactly when no generation up to [i] wrote [k].  The
    reader is the one that the tree gave right after commit [i], so no write
    of a later generation is ever returned. *)
Theorem Reader_returns_latest_write (d : DiskLayer) (cs : list commit)
    (i : nat) (k : Hash * string) :
  linear_chain (disk_root d) cs ->
  NoDup (disk_root d :: map commit_root cs) ->
  i <= length cs ->
  exists t r rd,
    commit_all (disk_only d) cs = Ok t /\
    root_at (disk_root d) cs i = Some r /\
    OpenReader t r = Ok rd /\
    (forall v, Node rd k = Ok v <-> latest_write d cs i k v) /\
    (Node rd k = Err NotFoundError <->
     forall j, j <= i -> written_at d cs j k = None) /\
    exists t_i,
      commit_all (disk_only d) (take i cs) = Ok t_i /\
      OpenReader t_i r = Ok rd.
Proof.
  intros Hlin Hnd Hi.
  destruct (OpenReader_generation d cs i Hnd Hi) as (r & Hr & Hopen).
  eexists _, r, _.
  split; [by apply (commit_all_linear cs (disk_only d))|].
  split; [exact Hr|]. cbn. rewrite app_nil_r.
  split; [exact Hopen|].
  assert (Hlen : length (take i cs) = i) by (rewrite length_take; lia).
  unfold Node. cbn.
  split; [|split].
  - intros v. rewrite <- latest_write_take by done.
    rewrite <- Hlen at 3.
    rewrite <- (lookup_layers_Some k (disk_generation d)).
    destruct (lookup_layers _ _ _); split; congruence.
  - transitivity (lookup_layers k
                    (rev (layers_of (disk_generation d) (take i cs))) d = None).
    + destruct (lookup_layers _ _ _); split; congruence.
    + rewrite (lookup_layers_None k (disk_generation d)), Hlen. split.
      * intros H j Hj. rewrite <- (written_at_take d cs i) by lia. by apply H.
      * intros H j Hj. rewrite written_at_take by lia. by apply H.
  - eexists. split.
    + apply (commit_all_linear (take i cs) (disk_only d)).
      rewrite <- (take_drop i cs) in Hlin. by apply linear_chain_app in Hlin.
    + cbn. rewrite app_nil_r.
      assert (Hnd' : NoDup (disk_root d :: map commit_root (take i cs))).
      { rewrite <- (take_drop i cs), map_app in Hnd.
        rewrite app_comm_cons in Hnd. by apply NoDup_app in Hnd as [Hnd _]. }
      destruct (OpenReader_generation d (take i cs) i Hnd' ltac:(lia))
        as (r' & Hr' & Hopen').
      assert (r' = r) as ->.
      { destruct i as [|i]; cbn in Hr, Hr'; [congruence|].
        rewrite lookup_take_lt in Hr' by lia. congruence. }
      rewrite Hopen'. by rewrite take_take, Nat.min_id.
Qed.

Lemma Reader_returns_latest_write_witness :
  let d := examples.genesis_disk in
  let cs := examples.two_blocks in
  linear_chain (disk_root d) cs /\
  NoDup (disk_root d :: map commit_root cs) /\
  exists t r rd,
    commit_all (disk_only d) cs = Ok t /\
    root_at (disk_root d) cs 1 = Some r /\
    OpenReader t r = Ok rd /\
    (forall v, Node rd examples.account_A = Ok v <->
               latest_write d cs 1 examples.account_A v) /\
    (Node rd examples.account_A = Err NotFoundError <->
     forall j, j <= 1 -> written_at d cs j examples.account_A = None) /\
    exists t_i,
      commit_all (disk_only d) (take 1 cs) = Ok t_i /\
      OpenReader t_i r = Ok rd.
Proof.
  cbn zeta.
  assert (Hlin : linear_chain (disk_root examples.genesis_disk)
                   examples.two_blocks)
    by (cbn; repeat split).
  assert (Hnd : NoDup (disk_root examples.genesis_disk
                       :: map commit_root examples.two_blocks)).
  { cbn. repeat (apply NoDup_cons; split);
      rewrite ?not_elem_of_cons; repeat split;
      try discriminate; try apply not_elem_of_nil; apply NoDup_nil_2. }
  split; [exact Hlin|]. split; [exact Hnd|].
  apply (Reader_returns_latest_write examples.genesis_disk
           examples.two_blocks 1 examples.account_A Hlin Hnd).
  cbn. lia.
Defined.

(** C3 as stated, for every linear chain, fails when a root repeats: the
    commits R0 -> R1 -> R0 form a linear chain and [Commit] accepts both,
    but the root of generation 0 then names the layer of generation 2 as
    well, and its reader returns A = 150, which generation 2 wrote and no
    generation up to 0 did. *)
Lemma Reader_repeated_root_counterexample :
  let d := examples.genesis_disk in
  let cs := examples.returning_chain in
  linear_chain (disk_root d) cs /\
  exists t rd,
    commit_all (disk_only d) cs = Ok t /\
    root_at (disk_root d) cs 0 = Some examples.R0 /\
    OpenReader t examples.R0 = Ok rd /\
    Node rd examples.account_A = Ok [Byte.x96] /\
    written_at d cs 2 examples.account_A = Some [Byte.x96] /\
    (forall j, j <= 0 -> written_at d cs j examples.account_A = None) /\
    ~ latest_write d cs 0 examples.account_A [Byte.x96].
Proof.
  cbn zeta. split; [cbn; repeat split|].
  do 2 eexists.
  split; [vm_compute; reflexivity|]. split; [reflexivity|].
  split; [vm_compute; reflexivity|]. split; [vm_compute; reflexivity|].
  split; [vm_compute; reflexivity|].
  assert (H0 : forall j, j <= 0 ->
            written_at examples.genesis_disk examples.returning_chain j
              examples.account_A = None).
  { intros j Hj. replace j with 0%nat by lia. reflexivity. }
  split; [exact H0|].
  intros (j & Hj & Hw & _). rewrite (H0 j Hj) in Hw. discriminate Hw.
Qed.

End LayerTreeFacts.

(* ===================================================================== *)
(** * More theorems: camel *)
(* ===================================================================== *)

Section CamelMore.
Import gostring tracetest bytecount.

Lemma string_length_append (a b : string) :
  String.length (String.append a b)
  = (String.length a + String.length b)%nat.
Proof.
  induction a as [|c a IH]; [reflexivity|].
  change (String.append (String c a) b) with (String c (String.append a b)).
  cbn [String.length]. by rewrite IH.
Qed.

Lemma string_append_nil_r (a : string) : String.append a EmptyString = a.
Proof.
  induction a as [|c a IH]; [reflexivity|].
  change (String.append (String c a) EmptyString)
    with (String c (String.append a EmptyString)).
  by rewrite IH.
Qed.

Lemma count_byte_append c (a b : string) :
  count_byte c (String.append a b) = (count_byte c a + count_byte c b)%nat.
Proof.
  induction a as [|x a IH]; [reflexivity|].
  change (String.append (String x a) b) with (String x (String.append a b)).
  cbn [count_byte]. destruct (decide (x = c)); rewrite IH; lia.
Qed.

(** A string without the separator is a single piece. *)
Lemma Split_without_sep sep s :
  count_byte sep s = 0%nat -> Split sep s = [s].
Proof.
  induction s as [|c s IH]; cbn; [done|].
  destruct (decide (c = sep)); [discriminate|].
  intros H. by rewrite IH.
Qed.

(** No piece holds the separator. *)
Lemma Split_pieces_without_sep sep s :
  Forall (fun p => count_byte sep p = 0%nat) (Split sep s).
Proof.
  induction s as [|c s IH]; cbn.
  - by constructor.
  - destruct (decide (c = sep)) as [->|Hne].
    + by constructor.
    + destruct (Split sep s) as [|p ps]; inversion IH; subst;
        constructor; cbn; try done; by rewrite decide_False.
Qed.

(** The pieces joined are the string without its separators. *)
Lemma Join_Split_length sep s :
  (String.length (Join (Split sep s)) + count_byte sep s
   = String.length s)%nat.
Proof.
  induction s as [|c s IH]; [reflexivity|]. cbn [Split count_byte].
  destruct (decide (c = sep)).
  - cbn [Join]. rewrite string_length_append. cbn [String.length]. lia.
  - destruct (Split sep s) as [|p ps]; cbn [Join] in *;
      rewrite ?string_length_append in *; cbn [String.length] in *; lia.
Qed.

(** The upper-cased first byte never is an underscore, and takes one byte
    when the byte is ASCII and two bytes otherwise. *)
Lemma upper_byte_facts (b : ascii) :
  b <> "_"%char ->
  count_byte "_" (string_of_rune (ToUpper (rune_of_byte b))) = 0%nat /\
  String.length (string_of_rune (ToUpper (rune_of_byte b)))
  = (if (0x80 <=? rune_of_byte b)%Z then 2%nat else 1%nat).
Proof.
  destruct b as [[] [] [] [] [] [] [] []]; intros Hne;
    first [ by (exfalso; apply Hne) | vm_compute; split; reflexivity ].
Qed.

Lemma upperFirstByte_facts (p : string) :
  count_byte "_" p = 0%nat ->
  count_byte "_" (upperFirstByte p) = 0%nat /\
  String.length (upperFirstByte p)
  = (String.length p + (if starts_wide p then 1 else 0))%nat.
Proof.
  destruct p as [|b rest]; [done|]. cbn [count_byte upperFirstByte].
  destruct (decide (b = "_"%char)) as [->|Hne]; [discriminate|].
  intros Hrest. destruct (upper_byte_facts b Hne) as [Hc Hl].
  rewrite count_byte_append, string_length_append, Hc, Hl, Hrest.
  cbn [starts_wide String.length].
  split; [done|]. destruct (0x80 <=? rune_of_byte b); lia.
Qed.

Lemma Join_upper_facts (ps : list string) :
  Forall (fun p => count_byte "_" p = 0%nat) ps ->
  count_byte "_" (Join (map upperFirstByte ps)) = 0%nat /\
  String.length (Join (map upperFirstByte ps))
  = (String.length (Join ps) + length (List.filter starts_wide ps))%nat.
Proof.
  induction 1 as [|p ps Hp _ [IHc IHl]]; [done|].
  cbn [map Join List.filter].
  destruct (upperFirstByte_facts p Hp) as [Hc Hl].
  rewrite count_byte_append, !string_length_append, Hc, Hl, IHc, IHl.
  split; [done|]. destruct (starts_wide p); cbn [length]; lia.
Qed.

(** The loop panics at the first empty piece it meets. *)
Lemma camel_loop_panics (post : list string) :
  forall (pre : list string) (fuel : nat),
    Exists (fun p => p = EmptyString) post ->
    (length post < fuel)%nat ->
    camel_loop fuel (length pre) (pre ++ post)
    = Panics "index out of range [0] with length 0".
Proof.
  induction post as [|p post IH]; intros pre fuel Hex Hfuel.
  - inversion Hex.
  - destruct fuel as [|fuel]; [cbn in Hfuel; lia|].
    cbn [camel_loop].
    replace (length pre <? length (pre ++ p :: post))%nat with true
      by (symmetry; apply Nat.ltb_lt; rewrite length_app; cbn; lia).
    destruct p as [|b rest].
    + unfold camel_step. by rewrite list_lookup_middle.
    + rewrite camel_step_middle.
      inversion Hex as [? ? Hp|? ? Hpost]; subst; [discriminate|].
      specialize (IH (pre ++ [upperFirstByte (String b rest)]) fuel Hpost).
      rewrite length_app in IH. cbn [length] in IH.
      replace (length pre + 1)%nat with (S (length pre)) in IH by lia.
      rewrite <- !app_assoc in IH. cbn [app] in IH.
      apply IH. cbn in Hfuel. lia.
Qed.

(** What [camel] does, in every case. *)
Lemma camel_cases (str : string) :
  exists p ps,
    Split "_"%char str = p :: ps /\
    ((Forall (fun q => q <> EmptyString) ps /\
      camel str = Returns (Join (p :: map upperFirstByte ps))) \/
     (Exists (fun q => q = EmptyString) ps /\
      camel str = Panics "index out of range [0] with length 0")).
Proof.
  unfold camel, camel_fuel.
  pose proof (Split_length "_"%char str) as Hlen.
  destruct (Split "_"%char str) as [|p ps] eqn:Hsplit;
    [by apply Split_not_nil in Hsplit|].
  exists p, ps. split; [done|]. cbn [length] in Hlen.
  destruct (decide (Forall (fun q => q <> EmptyString) ps)) as [Hall|Hnot].
  - left. split; [done|].
    by rewrite (camel_loop_run ps [p]) by (done || lia).
  - right. apply not_Forall_Exists in Hnot; [|apply _].
    assert (Hex : Exists (fun q => q = EmptyString) ps).
    { eapply Exists_impl; [exact Hnot|]. cbn. intros q Hq.
      by destruct (decide (q = EmptyString)). }
    split; [done|].
    by rewrite (camel_loop_panics ps [p]) by (done || lia).
Qed.

(** X1: [camel] returns exactly when no piece after the first is empty, and
    otherwise panics with an index out of range: two underscores in a row, or
    an underscore at the end, make it panic.  The fuel it is run with is
    always enough. *)
Theorem camel_panics_iff_empty_piece (str : string) :
  (pieces_nonempty str <-> exists r, camel str = Returns r) /\
  (~ pieces_nonempty str <->
   camel str = Panics "index out of range [0] with length 0") /\
  camel str <> OutOfFuel.
Proof.
  unfold pieces_nonempty.
  destruct (camel_cases str) as (p & ps & Hs & [[Hall Hc]|[Hex Hc]]);
    rewrite Hs, Hc; cbn [tail].
  - split; [|split]; [split; eauto | split; [done|discriminate] | discriminate].
  - assert (Hnot : ~ Forall (fun q => q <> EmptyString) ps).
    { intros Hall. apply Exists_exists in Hex as (q & Hq & ->).
      rewrite Forall_forall in Hall. by apply (Hall _ Hq). }
    split; [|split]; [split; [done|by intros [r Hr]] | done | discriminate].
Qed.

(** X2: a string without an underscore is returned unchanged. *)
Theorem camel_without_underscore (str : string) :
  count_byte "_" str = 0%nat -> camel str = Returns str.
Proof.
  intros H. unfold camel, camel_fuel.
  rewrite (Split_without_sep _ _ H). cbn.
  by rewrite string_append_nil_r.
Qed.

Lemma camel_without_underscore_witness :
  count_byte "_" "prestate" = 0%nat /\
  camel "prestate" = Returns "prestate"%string.
Proof.
  assert (H : count_byte "_" "prestate" = 0%nat) by reflexivity.
  split; [exact H|]. exact (camel_without_underscore "prestate" H).
Defined.

Lemma camel_Returns_inv (str r : string) :
  camel str = Returns r ->
  exists p ps, Split "_"%char str = p :: ps /\
    r = Join (p :: map upperFirstByte ps).
Proof.
  intros Hr. destruct (camel_cases str) as (p & ps & Hs & [[_ Hc]|[_ Hc]]);
    rewrite Hc in Hr; [|discriminate].
  injection Hr as <-. eauto.
Qed.

(** X3: what [camel] returns holds no underscore, so [camel] applied to its
    own result returns it unchanged. *)
Theorem camel_result_without_underscore (str r : string) :
  camel str = Returns r ->
  count_byte "_" r = 0%nat /\ camel r = Returns r.
Proof.
  intros Hr. destruct (camel_Returns_inv str r Hr) as (p & ps & Hs & ->).
  pose proof (Split_pieces_without_sep "_"%char str) as Hall.
  rewrite Hs in Hall. inversion Hall as [|? ? Hp Hps]; subst.
  assert (H0 : count_byte "_" (Join (p :: map upperFirstByte ps)) = 0%nat).
  { cbn [Join]. rewrite count_byte_append, Hp.
    by destruct (Join_upper_facts ps Hps) as [-> _]. }
  split; [exact H0|].
  intros. unfold camel, camel_fuel.
  rewrite (Split_without_sep _ _ H0). cbn.
  by rewrite string_append_nil_r.
Qed.

Lemma camel_result_without_underscore_witness :
  camel "call_tracer" = Returns "callTracer"%string /\
  count_byte "_" "callTracer" = 0%nat /\
  camel "callTracer" = Returns "callTracer"%string.
Proof.
  assert (H : camel "call_tracer" = Returns "callTracer"%string)
    by (vm_compute; reflexivity).
  split; [exact H|].
  exact (camel_result_without_underscore "call_tracer" "callTracer" H).
Defined.

(** X4: the length of what [camel] returns is the length of the input
    without its underscores, plus one byte for every piece after the first
    that starts with a byte that is not ASCII (the byte, taken as a code
    point, is encoded in two bytes). *)
Theorem camel_result_length (str r : string) :
  camel str = Returns r ->
  (String.length r + count_byte "_" str
   = String.length str + wide_pieces str)%nat.
Proof.
  intros Hr. destruct (camel_Returns_inv str r Hr) as (p & ps & Hs & ->).
  pose proof (Split_pieces_without_sep "_"%char str) as Hall.
  pose proof (Join_Split_length "_"%char str) as Hlen.
  unfold wide_pieces. rewrite Hs in *. cbn [tail].
  inversion Hall as [|? ? Hp Hps]; subst.
  destruct (Join_upper_facts ps Hps) as [_ Hl].
  cbn [Join] in *. rewrite string_length_append in *. lia.
Qed.

Lemma camel_result_length_witness :
  camel "call_tracer" = Returns "callTracer"%string /\
  (String.length "callTracer" + count_byte "_" "call_tracer"
   = String.length "call_tracer" + wide_pieces "call_tracer")%nat.
Proof.
  assert (H : camel "call_tracer" = Returns "callTracer"%string)
    by (vm_compute; reflexivity).
  split; [exact H|].
  exact (camel_result_length "call_tracer" "callTracer" H).
Defined.

End CamelMore.

(* ===================================================================== *)
(** * More theorems: the start-up of the node *)
(* ===================================================================== *)

Section NewMore.
Import effects ethconfig eth cachespec tracekinds ethmore.

(** Further fields that the sanitizations leave alone. *)
Lemma sanitized_more_fields env c :
  let c' := sanitizeCaches (sanitizeGasPrice env c) in
  NetworkId c' = NetworkId c /\
  VMTrace c' = VMTrace c /\
  VMTraceJsonConfig c' = VMTraceJsonConfig c /\
  NoPruning c' = NoPruning c /\
  SnapshotCache c' = SnapshotCache (sanitizeCaches c) /\
  MinerGasPrice c' = MinerGasPrice (sanitizeGasPrice env c).
Proof.
  cbn zeta. unfold sanitizeCaches, sanitizeGasPrice.
  destruct (MinerGasPrice c) as [p|] eqn:Hp; [destruct (p <=? 0)|];
    cbn [NoPruning TrieDirtyCache SnapshotCache set_MinerGasPrice];
    destruct (NoPruning c && (TrieDirtyCache c >? 0));
    try destruct (SnapshotCache c >? 0);
    cbn -[goint.add goint.mul goint.div]; rewrite ?Hp; repeat split.
Qed.

(** The node that [New] returns. *)
Lemma New_Ok_node env c e :
  result_of (New env c) = Returned (Ok e) ->
  let c' := sanitizeCaches (sanitizeGasPrice env c) in
  config e = c' /\
  gasPrice e = MinerGasPrice c' /\
  closeBloomHandler e = false /\
  exists db chainConfig,
    env_OpenDatabaseWithFreezer env = Ok db /\
    env_LoadChainConfig env db = Ok chainConfig /\
    if NetworkId c' =? 0 then
      exists id, params.ChainID chainConfig = Some id /\
                 networkID e = bigint.Uint64 id
    else networkID e = NetworkId c'.
Proof.
  cbn zeta. unfold New, ChainID_Uint64, checkDatabaseVersion.
  set (c' := sanitizeCaches (sanitizeGasPrice env c)).
  new_cases; try discriminate.
  all: intros [= <-]; cbn; repeat split.
  all: eexists _, _; split; [reflexivity|]; split; [eassumption|].
  all: first [reflexivity | eexists; split; [eassumption | reflexivity]].
Qed.

(** X5: with an invalid sync mode [New] returns the error without making any
    call; otherwise opening the chain database is its first call and is made
    once, and when that fails [New] returns the error of it right away. *)
Theorem New_opens_database_first (env : Env) (c : Config) :
  let t := trace_of (New env c) in
  if SyncMode_IsValid env (SyncMode c) then
    t !! 0%nat = Some OpenDatabaseWithFreezer /\
    count is_OpenDatabaseWithFreezer t = 1%nat /\
    match env_OpenDatabaseWithFreezer env with
    | Ok _ => True
    | Err err => New env c = ([OpenDatabaseWithFreezer], Returned (Err err))
    end
  else
    New env c = ([], Returned (Err (ErrInvalidSyncMode (SyncMode c)))).
Proof.
  cbn zeta. unfold New, ChainID_Uint64, checkDatabaseVersion.
  set (c' := sanitizeCaches (sanitizeGasPrice env c)).
  destruct (SyncMode_IsValid env (SyncMode c)); [|reflexivity].
  new_cases; repeat split.
Qed.


(** X7: when the chain configuration that is loaded names no terminal total
    difficulty, [New] returns the error of [CreateConsensusEngine]; it has
    then neither written a database version nor built the blockchain. *)
Theorem New_requires_terminal_total_difficulty (env : Env) (c : Config)
    (db : rawdb.ChainDb) (scheme : string) (chainConfig : params.ChainConfig) :
  SyncMode_IsValid env (SyncMode c) = true ->
  env_OpenDatabaseWithFreezer env = Ok db ->
  env_ParseStateScheme env (StateScheme c) db = Ok scheme ->
  env_LoadChainConfig env db = Ok chainConfig ->
  params.TerminalTotalDifficulty chainConfig = None ->
  result_of (New env c) = Returned (Err ErrMissingTerminalTotalDifficulty) /\
  count is_WriteDatabaseVersion (trace_of (New env c)) = 0%nat /\
  count is_NewBlockChain (trace_of (New env c)) = 0%nat.
Proof.
  intros Hv Ho Hp Hl Httd.
  destruct (sanitized_fields env c) as (_ & _ & _ & _ & HS & _).
  cbn zeta in HS. unfold New, ChainID_Uint64, checkDatabaseVersion, CreateConsensusEngine.
  set (c' := sanitizeCaches (sanitizeGasPrice env c)) in *.
  rewrite Hv, Ho. run_monad. rewrite HS, Hp. run_monad.
  destruct (decide (scheme = rawdb.HashScheme)); run_monad;
    rewrite Hl; run_monad; rewrite Httd; run_monad; repeat split.
Qed.

Lemma New_requires_terminal_total_difficulty_witness :
  result_of (New moreexamples.env_premerge examples.Defaults)
  = Returned (Err ErrMissingTerminalTotalDifficulty) /\
  count is_WriteDatabaseVersion
    (trace_of (New moreexamples.env_premerge examples.Defaults)) = 0%nat /\
  count is_NewBlockChain
    (trace_of (New moreexamples.env_premerge examples.Defaults)) = 0%nat.
Proof.
  apply (New_requires_terminal_total_difficulty
           moreexamples.env_premerge examples.Defaults
           moreexamples.db9 rawdb.PathScheme moreexamples.premerge);
    reflexivity.
Defined.

(** X8: with the version check enabled, the database on which [New] builds
    the blockchain always is at exactly [BlockChainVersion], whether that
    version was found or written; its persisted state scheme is the one of
    the database that was opened. *)
Theorem New_builds_on_supported_version (env : Env) (c : Config)
    (db' : rawdb.ChainDb) (cc : core.CacheConfig) :
  SkipBcVersionCheck c = false ->
  In (NewBlockChain db' cc) (trace_of (New env c)) ->
  rawdb.db_version db' = Some (BlockChainVersion env) /\
  exists db, env_OpenDatabaseWithFreezer env = Ok db /\
    rawdb.db_scheme db' = rawdb.db_scheme db.
Proof.
  intros Hskip.
  destruct (sanitized_fields env c) as (_ & _ & _ & _ & _ & Hk).
  cbn zeta in Hk. rewrite Hskip in Hk.
  unfold New, ChainID_Uint64, checkDatabaseVersion.
  set (c' := sanitizeCaches (sanitizeGasPrice env c)) in *.
  rewrite Hk. unfold rawdb.ReadDatabaseVersion.
  new_cases.
  all: cbn [In]; intros Hin.
  all: repeat (destruct Hin as [Hin|Hin]; [try discriminate Hin|]);
    try contradiction.
  all: injection Hin as <- <-; cbn.
  all: split; [|eexists; split; reflexivity].
  all: try reflexivity.
  all: match goal with
       | H : rawdb.db_version _ = Some _ |- _ => rewrite H
       end; f_equal.
  all: repeat match goal with
       | H : (_ >? _) = false |- _ =>
         rewrite Z.gtb_ltb in H; apply Z.ltb_ge in H
       | H : (_ <? _) = false |- _ => apply Z.ltb_ge in H
       end; lia.
Qed.

Lemma New_builds_on_supported_version_witness :
  let db' := rawdb.WriteDatabaseVersion moreexamples.db8 9 in
  SkipBcVersionCheck examples.Defaults = false /\
  In (NewBlockChain db' moreexamples.default_cache_config)
     (trace_of (New moreexamples.env8 examples.Defaults)) /\
  rawdb.db_version db' = Some (BlockChainVersion moreexamples.env8).
Proof.
  cbn zeta.
  assert (Hin : In (NewBlockChain
                      (rawdb.WriteDatabaseVersion moreexamples.db8 9)
                      moreexamples.default_cache_config)
                   (trace_of (New moreexamples.env8 examples.Defaults))).
  { vm_compute. do 7 right. left. reflexivity. }
  split; [reflexivity|]. split; [exact Hin|].
  exact (proj1 (New_builds_on_supported_version moreexamples.env8
                  examples.Defaults _ _ eq_refl Hin)).
Defined.

(** X9: the node that [New] returns has the gas price of its sanitized
    configuration: the configured one if that is positive, and the default
    when the configured one is nil or not positive; so it is positive when
    the default is. *)
Theorem New_sanitizes_gas_price (env : Env) (c : Config) (e : rajchain) :
  result_of (New env c) = Returned (Ok e) ->
  exists p,
    gasPrice e = Some p /\
    MinerGasPrice (config e) = Some p /\
    (forall q, MinerGasPrice c = Some q -> 0 < q -> p = q) /\
    (forall q, MinerGasPrice c = Some q -> q <= 0 ->
       p = Defaults_Miner_GasPrice env) /\
    (MinerGasPrice c = None -> p = Defaults_Miner_GasPrice env) /\
    (0 < Defaults_Miner_GasPrice env -> 0 < p).
Proof.
  intros He.
  destruct (New_Ok_node env c e He) as (Hc & Hg & _).
  destruct (sanitized_more_fields env c) as (_ & _ & _ & _ & _ & Hm).
  cbn zeta in *. rewrite Hc, Hg, Hm. unfold sanitizeGasPrice.
  destruct (MinerGasPrice c) as [q|] eqn:Hq.
  - destruct (q <=? 0) eqn:Hle; cbn; rewrite ?Hq.
    + apply Z.leb_le in Hle. exists (Defaults_Miner_GasPrice env).
      split; [done|]. split; [done|].
      split; [intros q' [= <-] Hpos; lia|].
      split; [done|]. split; [done|]. done.
    + apply Z.leb_gt in Hle. exists q.
      split; [done|]. split; [done|].
      split; [by intros q' [= <-] _|].
      split; [intros q' [= <-] Hneg; lia|].
      split; [discriminate|]. intros _. lia.
  - cbn. exists (Defaults_Miner_GasPrice env).
    split; [done|]. split; [done|].
    split; [discriminate|]. split; [discriminate|]. done.
Qed.

Lemma New_sanitizes_gas_price_witness :
  MinerGasPrice moreexamples.free_gas = Some 0 /\
  exists e,
    result_of (New moreexamples.env9 moreexamples.free_gas)
    = Returned (Ok e) /\
    gasPrice e = Some 1000000.
Proof.
  assert (He : exists e,
             result_of (New moreexamples.env9 moreexamples.free_gas)
             = Returned (Ok e))
    by (vm_compute; eexists; reflexivity).
  destruct He as [e He].
  split; [reflexivity|]. exists e. split; [exact He|].
  destruct (New_sanitizes_gas_price moreexamples.env9 moreexamples.free_gas
              e He) as (p & Hp & _ & _ & Hdef & _).
  rewrite Hp. f_equal. apply (Hdef 0); [reflexivity | lia].
Defined.

(** X10: the network id of the node is the configured one; when that is
    left zero, the chain configuration that was loaded names a chain id and
    the network id is its [Uint64()], the low 64 bits of its magnitude: the
    chain id itself when that fits a uint64, and its negation when it is
    negative and more than [-2^64]. *)
Theorem New_network_id (env : Env) (c : Config) (e : rajchain) :
  result_of (New env c) = Returned (Ok e) ->
  (NetworkId c <> 0 -> networkID e = NetworkId c) /\
  (NetworkId c = 0 ->
   exists db chainConfig id,
     env_OpenDatabaseWithFreezer env = Ok db /\
     env_LoadChainConfig env db = Ok chainConfig /\
     params.ChainID chainConfig = Some id /\
     networkID e = Z.abs id mod 2 ^ 64 /\
     0 <= networkID e < 2 ^ 64 /\
     (0 <= id < 2 ^ 64 -> networkID e = id) /\
     (- 2 ^ 64 < id < 0 -> networkID e = - id)).
Proof.
  intros He.
  destruct (New_Ok_node env c e He) as (_ & _ & _ & db & cfg & Ho & Hl & Hn).
  destruct (sanitized_more_fields env c) as (Hid & _).
  cbn zeta in *. rewrite Hid in Hn. split.
  - intros Hne. by destruct (Z.eqb_spec (NetworkId c) 0).
  - intros H0. rewrite H0 in Hn. cbn in Hn. destruct Hn as (id & Hc & Hn).
    exists db, cfg, id. unfold bigint.Uint64 in Hn. rewrite Hn.
    split; [done|]. split; [done|]. split; [done|]. split; [done|].
    split; [apply Z.mod_pos_bound; lia|]. split.
    + intros Hr. rewrite Z.abs_eq by lia. apply Z.mod_small. lia.
    + intros Hr. rewrite Z.abs_neq by lia. apply Z.mod_small. lia.
Qed.

Lemma New_network_id_witness :
  exists e,
    result_of (New moreexamples.env9 examples.Defaults) = Returned (Ok e) /\
    networkID e = 1.
Proof.
  assert (He : exists e,
             result_of (New moreexamples.env9 examples.Defaults)
             = Returned (Ok e))
    by (vm_compute; eexists; reflexivity).
  destruct He as [e He]. exists e. split; [exact He|].
  destruct (proj2 (New_network_id moreexamples.env9 examples.Defaults e He)
              eq_refl)
    as (db & cfg & id & Ho & Hl & Hc & _ & _ & Hfit & _).
  injection Ho as <-. injection Hl as <-. injection Hc as <-.
  apply Hfit. lia.
Defined.

(** X11: [New] creates a live tracer at most once and only when a tracer is
    configured, with the configured tracer configuration or the empty JSON
    object; when creating it fails, [New] returns the wrapped error and
    never builds the blockchain. *)
Theorem New_tracer_calls (env : Env) (c : Config) :
  let t := trace_of (New env c) in
  Forall (tracer_call_of c) t /\
  (count is_TracersNew t <= 1)%nat /\
  (VMTrace c = EmptyString -> count is_TracersNew t = 0%nat) /\
  (forall err,
      VMTrace c <> EmptyString ->
      (forall traceConfig,
          env_TracersNew env (VMTrace c) traceConfig = Some err) ->
      count is_NewBlockChain t = 0%nat /\
      (count is_TracersNew t = 1%nat ->
       result_of (New env c)
       = Returned (Err (ErrCreateTracer (VMTrace c) err)))).
Proof.
  cbn zeta.
  destruct (sanitized_more_fields env c) as (_ & HV & HJ & _).
  cbn zeta in *. unfold New, ChainID_Uint64, checkDatabaseVersion.
  set (c' := sanitizeCaches (sanitizeGasPrice env c)) in *.
  rewrite HV, HJ. unfold tracer_call_of.
  new_cases.
  all: repeat match goal with H : decide _ = _ |- _ => clear H end.
  all: split;
    [ repeat constructor; try done;
      case_decide; first [reflexivity | congruence | exfalso; tauto] |].
  all: split; [cbn; lia|].
  all: split; [try reflexivity; intros ?; congruence|].
  all: intros err Hne Hfail.
  all: try match goal with
           | H : env_TracersNew _ _ _ = _ |- _ => rewrite Hfail in H
           end.
  all: try discriminate; try congruence.
  all: simplify_eq; repeat split; done.
Qed.

(** X12: without overflow, the cache sanitization keeps the sum of the three
    caches, except that with a snapshot cache one megabyte is lost to
    rounding unless the dirty cache is a multiple of 5. *)
Theorem sanitizeCaches_budget (c : Config) :
  NoPruning c = true ->
  0 < TrieDirtyCache c ->
  caches_in_int c ->
  no_overflow c ->
  let total c := TrieCleanCache c + TrieDirtyCache c + SnapshotCache c in
  total (sanitizeCaches c)
  = total c
    - (if (SnapshotCache c >? 0) && negb (TrieDirtyCache c mod 5 =? 0)
       then 1 else 0).
Proof.
  intros Hnp Hd (Hclean & Hdirty & Hsnap) Hno. cbn zeta.
  unfold no_overflow, sanitizeCaches in *.
  rewrite Hnp. cbn [andb].
  replace (TrieDirtyCache c >? 0) with true
    by (symmetry; apply Z.gtb_lt; lia).
  unfold goint.in_int, goint.MinInt, goint.MaxInt in *.
  destruct (SnapshotCache c >? 0) eqn:Hs; cbn -[Z.mul Z.div Z.add Z.modulo].
  - apply Z.gtb_lt in Hs. destruct Hno as (H3 & Hc & Hsn).
    unfold goint.add, goint.div, goint.mul.
    assert (H35 : 0 <= TrieDirtyCache c * 3 / 5 <= TrieDirtyCache c * 3)
      by (split; [apply Z.div_pos | apply Z.div_le_upper_bound]; lia).
    assert (H25 : 0 <= TrieDirtyCache c * 2 / 5 <= TrieDirtyCache c * 2)
      by (split; [apply Z.div_pos | apply Z.div_le_upper_bound]; lia).
    rewrite !(wrap_in_int (TrieDirtyCache c * _))
      by (unfold goint.in_int, goint.MinInt, goint.MaxInt; lia).
    rewrite !Z.quot_div_nonneg by lia.
    rewrite !(wrap_in_int (_ / 5))
      by (unfold goint.in_int, goint.MinInt, goint.MaxInt; lia).
    rewrite !wrap_in_int
      by (unfold goint.in_int, goint.MinInt, goint.MaxInt; lia).
    pose proof (Z.div_mod (TrieDirtyCache c * 3) 5 ltac:(lia)) as E3.
    pose proof (Z.div_mod (TrieDirtyCache c * 2) 5 ltac:(lia)) as E2.
    pose proof (Z.div_mod (TrieDirtyCache c) 5 ltac:(lia)) as E1.
    pose proof (Z.mod_pos_bound (TrieDirtyCache c * 3) 5 ltac:(lia)) as B3.
    pose proof (Z.mod_pos_bound (TrieDirtyCache c * 2) 5 ltac:(lia)) as B2.
    pose proof (Z.mod_pos_bound (TrieDirtyCache c) 5 ltac:(lia)) as B1.
    destruct (Z.eqb_spec (TrieDirtyCache c mod 5) 0) as [H0|H0]; cbn [negb].
    + lia.
    + lia.
  - unfold goint.add.
    rewrite wrap_in_int
      by (unfold goint.in_int, goint.MinInt, goint.MaxInt; lia).
    lia.
Qed.

Lemma sanitizeCaches_budget_witness :
  let c := examples.archive examples.Defaults in
  let total c := TrieCleanCache c + TrieDirtyCache c + SnapshotCache c in
  total c = 512 /\ total (sanitizeCaches c) = 511.
Proof.
  cbn zeta. split; [reflexivity|].
  pose proof (sanitizeCaches_budget (examples.archive examples.Defaults))
    as H.
  cbn zeta in H. rewrite H.
  - reflexivity.
  - reflexivity.
  - reflexivity.
  - vm_compute. repeat split; discriminate.
  - vm_compute. repeat split; discriminate.
Defined.

End NewMore.

(* ===================================================================== *)
(** * More theorems: sanitization, protocols, shutdown, discovery *)
(* ===================================================================== *)

Section NewMore2.
Import effects ethconfig eth cachespec tracekinds ethmore.

(** After the cache sanitization a node without pruning has no dirty cache. *)
Lemma sanitizeCaches_dirty c :
  NoPruning (sanitizeCaches c) = true -> TrieDirtyCache (sanitizeCaches c) <= 0.
Proof.
  unfold sanitizeCaches.
  destruct (NoPruning c) eqn:Hn; cbn [andb].
  - destruct (TrieDirtyCache c >? 0) eqn:Hd.
    + destruct (SnapshotCache c >? 0); cbn; lia.
    + intros _. rewrite Z.gtb_ltb in Hd. apply Z.ltb_ge in Hd. exact Hd.
  - congruence.
Qed.

Lemma sanitizeCaches_idempotent c :
  sanitizeCaches (sanitizeCaches c) = sanitizeCaches c.
Proof.
  unfold sanitizeCaches at 1.
  destruct (NoPruning (sanitizeCaches c)) eqn:Hn; cbn [andb]; [|done].
  pose proof (sanitizeCaches_dirty c Hn) as Hd.
  replace (TrieDirtyCache (sanitizeCaches c) >? 0) with false; [done|].
  symmetry. rewrite Z.gtb_ltb. apply Z.ltb_ge. exact Hd.
Qed.

Lemma sanitizeGasPrice_idempotent env c :
  sanitizeGasPrice env (sanitizeGasPrice env c) = sanitizeGasPrice env c.
Proof.
  unfold sanitizeGasPrice.
  destruct (MinerGasPrice c) as [p|] eqn:Hp.
  - destruct (p <=? 0) eqn:Hle; cbn; [|by rewrite Hp, Hle].
    by destruct (Defaults_Miner_GasPrice env <=? 0).
  - cbn. by destruct (Defaults_Miner_GasPrice env <=? 0).
Qed.

Lemma sanitizeGasPrice_sanitizeCaches env c :
  sanitizeGasPrice env (sanitizeCaches c)
  = sanitizeCaches (sanitizeGasPrice env c).
Proof.
  unfold sanitizeGasPrice, sanitizeCaches.
  destruct (NoPruning c && (TrieDirtyCache c >? 0)) eqn:Hc;
    [destruct (SnapshotCache c >? 0) eqn:Hs|];
    destruct (MinerGasPrice c) as [p|] eqn:Hp;
    try destruct (p <=? 0) eqn:Hle;
    cbn -[goint.add goint.mul goint.div]; rewrite ?Hp, ?Hle, ?Hc, ?Hs;
    reflexivity.
Qed.

(** X13: the sanitization of the configuration in [New] is idempotent (a
    second [New] on the configuration that the first one changed does not
    redistribute again), it leaves no positive dirty cache on a node without
    pruning, and so every cache configuration handed to
    [core.NewBlockChain] with [TrieDirtyDisabled] has no positive
    [TrieDirtyLimit]. *)
Theorem New_sanitization_idempotent (env : Env) (c : Config) :
  let sanitize c := sanitizeCaches (sanitizeGasPrice env c) in
  sanitize (sanitize c) = sanitize c /\
  (NoPruning (sanitize c) = true -> TrieDirtyCache (sanitize c) <= 0) /\
  forall db cc,
    In (NewBlockChain db cc) (trace_of (New env c)) ->
    core.TrieDirtyDisabled cc = true -> core.TrieDirtyLimit cc <= 0.
Proof.
  cbn zeta. split; [|split].
  - rewrite (sanitizeGasPrice_sanitizeCaches env (sanitizeGasPrice env c)).
    by rewrite sanitizeGasPrice_idempotent, sanitizeCaches_idempotent.
  - apply sanitizeCaches_dirty.
  - intros db cc.
    pose proof (sanitizeCaches_dirty (sanitizeGasPrice env c)) as Hd.
    unfold New, ChainID_Uint64, checkDatabaseVersion.
    set (c' := sanitizeCaches (sanitizeGasPrice env c)) in *.
    new_cases.
    all: cbn [In]; intros Hin.
    all: repeat (destruct Hin as [Hin|Hin]; [try discriminate Hin|]);
      try contradiction.
    all: injection Hin as <- <-; cbn; exact Hd.
Qed.

(** X14: the node that [New] returns offers the snap protocols exactly as
    configured: never when the snapshot cache is not positive (the cache
    sanitization does not turn it on), and, without overflow, always when it
    is positive; its archive mode is the configured [NoPruning]. *)
Theorem New_keeps_snapshot_protocols (P : Type) (ethP snapP : list P)
    (env : Env) (c : Config) (e : rajchain) :
  result_of (New env c) = Returned (Ok e) ->
  (SnapshotCache c <= 0 -> Protocols P ethP snapP e = ethP) /\
  (0 < SnapshotCache c -> caches_in_int c -> no_overflow c ->
   Protocols P ethP snapP e = ethP ++ snapP) /\
  ArchiveMode e = NoPruning c.
Proof.
  intros He. destruct (New_Ok_node env c e He) as (Hc & _).
  destruct (sanitized_more_fields env c) as (_ & _ & _ & Hn & Hs & _).
  cbn zeta in *. unfold Protocols, ArchiveMode. rewrite Hc, Hs, Hn.
  split; [|split; [|done]].
  - intros Hle. unfold sanitizeCaches.
    replace (SnapshotCache c >? 0) with false
      by (symmetry; rewrite Z.gtb_ltb; apply Z.ltb_ge; lia).
    destruct (NoPruning c && (TrieDirtyCache c >? 0)); cbn;
      by replace (SnapshotCache c >? 0) with false
        by (symmetry; rewrite Z.gtb_ltb; apply Z.ltb_ge; lia).
  - intros Hpos (Hclean & Hdirty & Hsnap) Hno.
    unfold sanitizeCaches, no_overflow in *.
    replace (SnapshotCache c >? 0) with true in *
      by (symmetry; apply Z.gtb_lt; lia).
    destruct (NoPruning c && (TrieDirtyCache c >? 0)) eqn:Hcond.
    + apply andb_prop in Hcond as [_ Hd]. apply Z.gtb_lt in Hd.
      destruct Hno as (H3 & Hcl & Hsn).
      cbn -[goint.add goint.mul goint.div].
      unfold goint.add, goint.div, goint.mul.
      unfold goint.in_int, goint.MinInt, goint.MaxInt in *.
      assert (H25 : 0 <= TrieDirtyCache c * 2 / 5 <= TrieDirtyCache c * 2)
        by (split; [apply Z.div_pos | apply Z.div_le_upper_bound]; lia).
      rewrite !(wrap_in_int (TrieDirtyCache c * _))
        by (unfold goint.in_int, goint.MinInt, goint.MaxInt; lia).
      rewrite !Z.quot_div_nonneg by lia.
      rewrite !(wrap_in_int (_ / 5))
        by (unfold goint.in_int, goint.MinInt, goint.MaxInt; lia).
      rewrite !wrap_in_int
        by (unfold goint.in_int, goint.MinInt, goint.MaxInt; lia).
      by replace (SnapshotCache c + TrieDirtyCache c * 2 / 5 >? 0) with true
        by (symmetry; apply Z.gtb_lt; lia).
    + by replace (SnapshotCache c >? 0) with true
        by (symmetry; apply Z.gtb_lt; lia).
Qed.

Lemma New_keeps_snapshot_protocols_witness :
  exists e,
    result_of (New moreexamples.env9 examples.Defaults) = Returned (Ok e) /\
    Protocols string ["eth/68"%string] ["snap/1"%string] e
    = ["eth/68"%string; "snap/1"%string].
Proof.
  assert (He : exists e,
             result_of (New moreexamples.env9 examples.Defaults)
             = Returned (Ok e))
    by (vm_compute; eexists; reflexivity).
  destruct He as [e He]. exists e. split; [exact He|].
  apply (proj1 (proj2 (New_keeps_snapshot_protocols string
                         ["eth/68"%string] ["snap/1"%string]
                         moreexamples.env9 examples.Defaults e He))).
  - reflexivity.
  - vm_compute. repeat split; discriminate.
  - vm_compute. repeat split; discriminate.
Defined.

(** X15: [Stop] on a node that [New] returned does not panic: it returns,
    closes the chain database once, and its last call stops the event
    mux. *)
Theorem Stop_after_New (env : Env) (c : Config) (e : rajchain) :
  result_of (New env c) = Returned (Ok e) ->
  is_Ok (result_of (Stop e)) = true /\
  count is_ChainDbClose (trace_of (Stop e)) = 1%nat /\
  last (trace_of (New env c) ++ trace_of (Stop e)) = Some EventMuxStop.
Proof.
  intros He. destruct (New_Ok_node env c e He) as (_ & _ & Hclosed & _).
  destruct e as [cfg db eng nid gp closed]. cbn in Hclosed. subst closed.
  split; [reflexivity|]. split; [reflexivity|].
  cbn. by rewrite last_app.
Qed.

Lemma Stop_after_New_witness :
  exists e,
    result_of (New moreexamples.env9 examples.Defaults) = Returned (Ok e) /\
    is_Ok (result_of (Stop e)) = true /\
    count is_ChainDbClose (trace_of (Stop e)) = 1%nat.
Proof.
  assert (He : exists e,
             result_of (New moreexamples.env9 examples.Defaults)
             = Returned (Ok e))
    by (vm_compute; eexists; reflexivity).
  destruct He as [e He]. exists e. split; [exact He|].
  destruct (Stop_after_New moreexamples.env9 examples.Defaults e He)
    as (H1 & H2 & _).
  split; assumption.
Defined.

(** X16: [makeExtraData] never returns more than the maximum size: extra
    data within the limit is kept, longer extra data is dropped (not
    truncated), and empty extra data is replaced by the default, which is
    dropped as well when it is too long. *)
Theorem makeExtraData_bounded (defaultExtra : bytes) (maximum : Z)
    (extra : bytes) :
  0 <= maximum ->
  let result := makeExtraData defaultExtra maximum extra in
  Z.of_nat (length result) <= maximum /\
  (extra <> [] -> Z.of_nat (length extra) <= maximum -> result = extra) /\
  (maximum < Z.of_nat (length extra) -> result = []) /\
  (extra = [] ->
   result = if Z.of_nat (length defaultExtra) >? maximum then []
            else defaultExtra).
Proof.
  intros Hmax. cbn zeta. unfold makeExtraData.
  destruct extra as [|b extra]; cbn [length Nat.eqb].
  - destruct (Z.of_nat (length defaultExtra) >? maximum) eqn:Hd.
    + cbn. repeat split; try done; lia.
    + rewrite Z.gtb_ltb in Hd. apply Z.ltb_ge in Hd.
      repeat split; try done. cbn. lia.
  - destruct (Z.of_nat (S (length extra)) >? maximum) eqn:Hd.
    + apply Z.gtb_lt in Hd. cbn [length]. repeat split; try done; lia.
    + rewrite Z.gtb_ltb in Hd. apply Z.ltb_ge in Hd.
      cbn [length]. repeat split; try done; lia.
Qed.

Lemma makeExtraData_bounded_witness :
  0 <= 32 /\
  makeExtraData moreexamples.default_extra 32 moreexamples.extra3
  = moreexamples.extra3 /\
  Z.of_nat (length (makeExtraData moreexamples.default_extra 32
                      moreexamples.extra3)) <= 32.
Proof.
  assert (Hmax : 0 <= 32) by discriminate.
  destruct (makeExtraData_bounded moreexamples.default_extra 32
              moreexamples.extra3 Hmax) as (Hlen & Hkeep & _).
  split; [exact Hmax|]. split; [|exact Hlen].
  apply Hkeep; discriminate.
Defined.

End NewMore2.

Section DiscoveryFacts.
Import effects discovery.

(** X17: [setupDiscovery] adds at most three sources; when it succeeds it
    has added one source per configured list of DNS URLs and one for discv5
    when that is running; when the iterator of the eth URLs fails it returns
    that error and has added no source; when the iterator of the snap URLs
    fails the discv5 source is not added. *)
Theorem setupDiscovery_sources (env : Env) (config : Config) :
  let '(t, r) := setupDiscovery env config in
  let eth := EthDiscoveryURLs config in
  let snap := SnapDiscoveryURLs config in
  (calls is_AddSource t <= 3)%nat /\
  (r = Ok tt ->
   calls is_AddSource t
   = (b2n (0 <? length eth) + b2n (0 <? length snap)
      + b2n (env_DiscoveryV5 env))%nat) /\
  (forall err, eth <> [] -> env_NewIterator env eth = Some err ->
     r = Err err /\ calls is_AddSource t = 0%nat) /\
  (forall err, snap <> [] -> env_NewIterator env snap = Some err ->
     r <> Ok tt /\ calls is_AddDHTSource t = 0%nat).
Proof.
  unfold setupDiscovery, addDNSSource.
  destruct config as [eth snap]. cbn [EthDiscoveryURLs SnapDiscoveryURLs].
  destruct eth as [|u eth], snap as [|v snap];
    cbn [length Nat.ltb Nat.leb];
    repeat match goal with
    | |- context [env_NewIterator env ?l] =>
      destruct (env_NewIterator env l) eqn:?
    end;
    destruct (env_DiscoveryV5 env); cbn;
    repeat split; try lia; try done; intros; simplify_eq; done.
Qed.

(** X18: [Start] always returns nil and starts the bloom handlers, the
    shutdown tracker and the handler, in this order, after the calls of
    [setupDiscovery], whose error it drops: when the iterator of the eth
    URLs fails the node starts with no discovery source at all. *)
Theorem Start_ignores_discovery_errors (env : Env) (config : Config) :
  let '(t, r) := Start env config in
  r = Ok tt /\
  calls is_HandlerStart t = 1%nat /\
  (exists pre,
      t = pre ++ [StartBloomHandlers; ShutdownTrackerStart; HandlerStart] /\
      pre = fst (setupDiscovery env config)) /\
  (forall err,
      EthDiscoveryURLs config <> [] ->
      env_NewIterator env (EthDiscoveryURLs config) = Some err ->
      snd (setupDiscovery env config) = Err err /\
      calls is_AddSource t = 0%nat).
Proof.
  unfold Start, setupDiscovery, addDNSSource.
  destruct config as [eth snap]. cbn [EthDiscoveryURLs SnapDiscoveryURLs].
  destruct eth as [|u eth], snap as [|v snap];
    cbn [length Nat.ltb Nat.leb];
    repeat match goal with
    | |- context [env_NewIterator env ?l] =>
      destruct (env_NewIterator env l) eqn:?
    end;
    destruct (env_DiscoveryV5 env); cbn;
    repeat split; try done;
    try (eexists; split; [|reflexivity]; reflexivity);
    intros; simplify_eq; done.
Qed.

End DiscoveryFacts.

(* ===================================================================== *)
(** * Examples *)
(* ===================================================================== *)

Section Examples.
Import pathdb.

(** The scenario of the specification: the reader of R2 sees A = 150, the
    reader of R1 still sees A = 100, and the reader of R0 sees no A. *)
Example scenario_two_blocks :
  exists t rd0 rd1 rd2,
    commit_all (disk_only examples.genesis_disk) examples.two_blocks = Ok t /\
    OpenReader t examples.R0 = Ok rd0 /\
    OpenReader t examples.R1 = Ok rd1 /\
    OpenReader t examples.R2 = Ok rd2 /\
    Node rd0 examples.account_A = Err NotFoundError /\
    Node rd1 examples.account_A = Ok [Byte.x64] /\
    Node rd2 examples.account_A = Ok [Byte.x96].
Proof.
  do 4 eexists. repeat split; vm_compute; reflexivity.
Qed.

(** A commit on a parent that is not the tail of the chain is rejected. *)
Example commit_on_stale_parent :
  exists t,
    commit_all (disk_only examples.genesis_disk) examples.two_blocks = Ok t /\
    Commit t examples.R1 (common.mkHash 3) ∅ = Err ParentNotFoundError.
Proof.
  eexists. split; vm_compute; reflexivity.
Qed.

(** [camel] on names of tracer test files, and on pieces that are empty. *)
Example camel_call_tracer :
  tracetest.camel "call_tracer_legacy" = gostring.Returns "callTracerLegacy"%string.
Proof. vm_compute. reflexivity. Qed.

Example camel_no_underscore :
  tracetest.camel "prestate" = gostring.Returns "prestate"%string.
Proof. vm_compute. reflexivity. Qed.

Example camel_empty_piece_panics :
  tracetest.camel "a__b"
  = gostring.Panics "index out of range [0] with length 0".
Proof. vm_compute. reflexivity. Qed.

(** The default configuration of an archive node: 256 MB of dirty cache go
    to the clean cache (153 MB) and to the snapshot cache (102 MB). *)
Example archive_defaults_caches :
  let c := eth.sanitizeCaches (examples.archive examples.Defaults) in
  ethconfig.TrieCleanCache c = 307%Z /\
  ethconfig.SnapshotCache c = 204%Z /\
  ethconfig.TrieDirtyCache c = 0%Z.
Proof. vm_compute. repeat split. Qed.

(** A second [Stop] panics before it reaches the database. *)
Example Stop_twice :
  forall s s',
    effects.result_of (eth.Stop s) = effects.Returned (effects.Ok s') ->
    effects.result_of (eth.Stop s') = effects.Panic "close of closed channel".
Proof.
  intros [? ? ? ? ? closed] s'. destruct closed; cbn; [discriminate|].
  intros [= <-]. reflexivity.
Qed.

End Examples.
